(** * Serializers (v2) and data migration 0018 of badgr-server

    A shallow embedding of [apps/issuer/serializers_v2.py] and of
    [apps/mainsite/migrations/0018_auto_20190201_1745.py].

    Python values are a small inductive universe; dictionaries with string
    keys are finite maps; objects live in a heap and are passed around by
    reference; exceptions are the [Raise] case of a result type.  Methods
    that touch objects or draw randomness run in a state-and-error monad
    over the world. *)

From Stdlib Require Import ZArith NArith String Ascii List Bool Lia.
From stdpp Require Import base option list sorting gmap strings.

Set Default Proof Using "Type".
#[local] Set Warnings "-register-all".
#[local] Open Scope string_scope.

(** ** Python values *)

(** Heap addresses of Python objects (model instances, uploaded files). *)
Definition loc := nat.

Inductive pyval : Type :=
  | VNone
  | VBool (b : bool)
  | VInt (z : Z)
  | VStr (s : string)
  | VList (items : list pyval)
  | VDict (entries : gmap string pyval)
  | VRef (l : loc).

(** A [dict] whose keys are strings: [validated_data], [attrs], the
    serializer [context], and the attribute dictionary of an object. *)
Abbreviation dict := (gmap string pyval).

(** Python truth value testing: [None], [False], zero and empty containers
    are false; plain objects are true. *)
Definition truthy (v : pyval) : bool :=
  match v with
  | VNone => false
  | VBool b => b
  | VInt z => negb (z =? 0)%Z
  | VStr s => negb (String.eqb s "")
  | VList items => match items with [] => false | _ :: _ => true end
  | VDict entries => negb (bool_decide (map_to_list entries = []))
  | VRef _ => true
  end.

(** [a or b] evaluates to [a] when [a] is true and to [b] otherwise. *)
Definition py_or (a b : pyval) : pyval := if truthy a then a else b.

(** ** Exceptions and results *)

(** The payload of a [serializers.ValidationError], as the code builds it:
    a message, or a dictionary keyed by field name. *)
Inductive detail : Type :=
  | DMsg (message : string)
  | DDict (errors : list (string * detail)).

Inductive exn : Type :=
  | ValidationError (d : detail)
  | DjangoValidationError (message : string)
  | KeyError (key : string)
  | AttributeError (attr : string)
  | TypeError.

Inductive result (A : Type) : Type :=
  | Ok (a : A)
  | Raise (e : exn).
Arguments Ok {A} a.
Arguments Raise {A} e.

#[global] Instance result_ret : MRet result := fun _ a => Ok a.
#[global] Instance result_bind : MBind result := fun _ _ f r =>
  match r with
  | Ok a => f a
  | Raise e => Raise e
  end.

(** ** Dictionary operations *)

(** [d.get(k)], with [None] as the default. *)
Definition dict_get (d : dict) (k : string) : pyval := default VNone (d !! k).

(** [k in d]. *)
Definition dict_contains (d : dict) (k : string) : bool := bool_decide (is_Some (d !! k)).

(** [d.pop(k)]: the value and the dictionary without the key, or [KeyError]. *)
Definition dict_pop (d : dict) (k : string) : result (pyval * dict) :=
  match d !! k with
  | Some v => Ok (v, delete k d)
  | None => Raise (KeyError k)
  end.

(** [d[k]]. *)
Definition dict_getitem (d : dict) (k : string) : result pyval :=
  match d !! k with
  | Some v => Ok v
  | None => Raise (KeyError k)
  end.

(** ** The world: object heap and entropy *)

(** Objects are attribute dictionaries in a heap.  [urandom] is the
    operating system's entropy source seen as a stream of 16-byte draws
    (each a number below 2^128); [draws] counts the draws made so far. *)
Record world : Type := World {
  heap : gmap loc dict;
  urandom : nat -> N;
  draws : nat
}.

Definition set_heap (h : gmap loc dict) (w : world) : world :=
  {| heap := h; urandom := urandom w; draws := draws w |}.

(** Computations that read and write the world and may raise.  A raised
    exception keeps the world as it was at the raise. *)
Definition M (A : Type) : Type := world -> result A * world.

#[global] Instance M_ret : MRet M := fun _ a w => (Ok a, w).
#[global] Instance M_bind : MBind M := fun _ _ f m w =>
  match m w with
  | (Ok a, w') => f a w'
  | (Raise e, w') => (Raise e, w')
  end.

Definition raise {A : Type} (e : exn) : M A := fun w => (Raise e, w).

Definition lift {A : Type} (r : result A) : M A := fun w => (r, w).

(** [getattr(v, attr)]. *)
Definition getattr (v : pyval) (attr : string) : M pyval := fun w =>
  match v with
  | VRef l =>
      match heap w !! l with
      | Some o =>
          match o !! attr with
          | Some x => (Ok x, w)
          | None => (Raise (AttributeError attr), w)
          end
      | None => (Raise (AttributeError attr), w)
      end
  | _ => (Raise (AttributeError attr), w)
  end.

(** [setattr(v, attr, x)]: only heap objects take attributes. *)
Definition setattr (v : pyval) (attr : string) (x : pyval) : M unit := fun w =>
  match v with
  | VRef l =>
      match heap w !! l with
      | Some o => (Ok tt, set_heap (<[l := <[attr := x]> o]> (heap w)) w)
      | None => (Raise (AttributeError attr), w)
      end
  | _ => (Raise (AttributeError attr), w)
  end.

(** Allocation of a new object with the given attributes. *)
Definition alloc (o : dict) : M pyval := fun w =>
  let l := fresh (dom (heap w)) in
  (Ok (VRef l), set_heap (<[l := o]> (heap w)) w).

(** ** [os.path.splitext] (posixpath) *)

(** [s.rfind(c)] for a one-character [c]: the last index of [c], or -1. *)
Fixpoint rfind_from (c : ascii) (s : string) (i last : Z) : Z :=
  match s with
  | EmptyString => last
  | String a rest => rfind_from c rest (i + 1)%Z (if Ascii.eqb a c then i else last)
  end.

Definition rfind (s : string) (c : ascii) : Z := rfind_from c s 0%Z (-1)%Z.

(** The slices [s[:n]] and [s[n:]]. *)
Fixpoint str_take (n : nat) (s : string) : string :=
  match n, s with
  | S n', String a rest => String a (str_take n' rest)
  | _, _ => EmptyString
  end.

Fixpoint str_drop (n : nat) (s : string) : string :=
  match n, s with
  | S n', String _ rest => str_drop n' rest
  | _, _ => s
  end.

(** The loop of [genericpath._splitext] that skips leading dots of the file
    name: [remaining] is [dotIndex - filenameIndex], the loop's variant. *)
Fixpoint splitext_scan (p : string) (dotIndex : nat) (remaining filenameIndex : nat)
    : string * string :=
  match remaining with
  | O => (p, EmptyString)
  | S remaining' =>
      match String.get filenameIndex p with
      | Some "."%char => splitext_scan p dotIndex remaining' (S filenameIndex)
      | _ => (str_take dotIndex p, str_drop dotIndex p)
      end
  end.

Definition splitext (p : string) : string * string :=
  let sepIndex := rfind p "/"%char in
  let dotIndex := rfind p "."%char in
  if (sepIndex <? dotIndex)%Z then
    let filenameIndex := (sepIndex + 1)%Z in
    splitext_scan p (Z.to_nat dotIndex)
      (Z.to_nat (dotIndex - filenameIndex)) (Z.to_nat filenameIndex)
  else (p, EmptyString).

(** ** [uuid.uuid4] and [str] of a UUID *)

(** [UUID(bytes=..., version=4)]: the variant and version bits are forced. *)
Definition uuid_of_random (r : N) : N :=
  let int := (r mod 2 ^ 128)%N in
  let int := N.ldiff int (N.shiftl 0xc000 48) in
  let int := N.lor int (N.shiftl 0x8000 48) in
  let int := N.ldiff int (N.shiftl 0xf000 64) in
  N.lor int (N.shiftl 4 76).

Definition hex_digit (n : N) : ascii :=
  match n with
  | 0%N => "0" | 1%N => "1" | 2%N => "2" | 3%N => "3"
  | 4%N => "4" | 5%N => "5" | 6%N => "6" | 7%N => "7"
  | 8%N => "8" | 9%N => "9" | 10%N => "a" | 11%N => "b"
  | 12%N => "c" | 13%N => "d" | 14%N => "e" | _ => "f"
  end%char.

(** The [width] low hexadecimal digits of [n], most significant first
    (['%032x' % n] when [width] is 32 and [n] is below 2^128). *)
Fixpoint hex_fixed (width : nat) (n : N) : list ascii :=
  match width with
  | O => []
  | S width' => hex_fixed width' (n / 16)%N ++ [hex_digit (n mod 16)%N]
  end.

(** [str(UUID(int=n))]: 8-4-4-4-12 hexadecimal digits. *)
Definition uuid_str (n : N) : string :=
  let hex := hex_fixed 32 n in
  string_of_list_ascii
    (take 8 hex ++ "-"%char :: take 4 (drop 8 hex) ++ "-"%char ::
     take 4 (drop 12 hex) ++ "-"%char :: take 4 (drop 16 hex) ++ "-"%char ::
     drop 20 hex).


Definition is_hex_digit (c : ascii) : bool :=
  let n := nat_of_ascii c in
  ((48 <=? n) && (n <=? 57) || (97 <=? n) && (n <=? 102))%nat.






(** [uuid.uuid4()]: one draw from the entropy source. *)
Definition uuid4 : M N := fun w =>
  (Ok (uuid_of_random (urandom w (draws w))),
   {| heap := heap w; urandom := urandom w; draws := S (draws w) |}).


(** ** What the serializers import *)

(** The names [serializers_v2.py] imports whose definitions are outside
    this development: the recipient type constants of [BadgeInstance], the
    three format validators (a validator returns normally or raises,
    [DjangoValidationError] carrying the format violation message), and
    the conversion that rest_framework's [CharField] and [ChoiceField]
    apply to a supplied value. *)
Class Imports : Type := {
  RECIPIENT_TYPE_EMAIL : string;
  RECIPIENT_TYPE_URL : string;
  RECIPIENT_TYPE_ID : string;
  RECIPIENT_TYPE_TELEPHONE : string;
  EmailValidator : pyval -> result unit;
  URLValidator : pyval -> result unit;
  TelephoneValidator : pyval -> result unit;
  CharField : pyval -> result pyval;
  ChoiceField : pyval -> result pyval
}.

(** ** Serializer fields (rest_framework) *)

(** A declared field: the key it reads from the payload, the key ([source])
    it writes into the validated attributes, whether it is required, its
    default, and its conversion of a supplied value. *)
Record Field : Type := {
  field_name : string;
  source : string;
  required : bool;
  default_value : option pyval;
  run_validation : pyval -> result pyval
}.

(** One step of [Serializer.to_internal_value] (full, not partial,
    deserialisation).  A field missing from the payload is an error when it
    is required, takes its default when it has one, and is skipped
    otherwise.  Field errors are collected under the field's name. *)
Definition run_field (data : dict) (acc : dict * list (string * detail)) (f : Field)
    : result (dict * list (string * detail)) :=
  let '(ret, errors) := acc in
  match data !! field_name f with
  | None =>
      if required f then Ok (ret, (errors ++ [(field_name f, DMsg "This field is required.")])%list)
      else match default_value f with
           | Some d => Ok (<[source f := d]> ret, errors)
           | None => Ok (ret, errors)
           end
  | Some v =>
      match run_validation f v with
      | Ok v' => Ok (<[source f := v']> ret, errors)
      | Raise (ValidationError d) => Ok (ret, (errors ++ [(field_name f, d)])%list)
      | Raise (DjangoValidationError m) => Ok (ret, (errors ++ [(field_name f, DMsg m)])%list)
      | Raise e => Raise e
      end
  end.

Fixpoint run_fields (data : dict) (acc : dict * list (string * detail)) (fields : list Field)
    : result (dict * list (string * detail)) :=
  match fields with
  | [] => Ok acc
  | f :: rest => acc' ← run_field data acc f; run_fields data acc' rest
  end.

Definition to_internal_value (fields : list Field) (data : dict) : result dict :=
  '(ret, errors) ← run_fields data (∅, []) fields;
  match errors with
  | [] => Ok ret
  | _ :: _ => Raise (ValidationError (DDict errors))
  end.

(** ** [entity.serializers.DetailSerializerV2] *)

Module DetailSerializerV2.

(** Modelled from the spec: [DetailSerializerV2.create] of
    [entity/serializers.py], which the serializers call through [super]
    and which is not among the source files.  Creation "succeeds and
    records" what it is given: a new model instance whose attributes are
    the validated data. *)
Definition create (validated_data : dict) : M pyval := alloc validated_data.

(** Modelled from the spec: [DetailSerializerV2.update] of
    [entity/serializers.py], not among the source files.  The payload
    fields are "applied normally": every entry of the validated data is set
    as an attribute of the instance, which is returned. *)
Definition update (instance : pyval) (validated_data : dict) : M pyval := fun w =>
  match instance with
  | VRef l =>
      match heap w !! l with
      | Some o => (Ok instance, set_heap (<[l := validated_data ∪ o]> (heap w)) w)
      | None => (Raise (AttributeError "save"), w)
      end
  | _ => (Raise (AttributeError "save"), w)
  end.

End DetailSerializerV2.

(** ** [IssuerSerializerV2] *)

Module IssuerSerializerV2.

(** [staff = IssuerStaffSerializerV2(many=True, source='staff_items',
    required=False)]; [items] stands for the nested list conversion. *)
Definition staff (items : pyval -> result pyval) : Field :=
  {| field_name := "staff"; source := "staff_items"; required := false;
     default_value := None; run_validation := items |}.

(** [image is not None] is an identity test, not a truth test.  A name that
    is not a string makes [os.path.splitext] fail. *)
Definition validate_image (image : pyval) : M pyval :=
  match image with
  | VNone => mret image
  | _ =>
      name ← getattr image "name";
      '(img_name, img_ext) ← lift (match name with
                                   | VStr p => Ok (splitext p)
                                   | _ => Raise TypeError
                                   end);
      u ← uuid4;
      _ ← setattr image "name" (VStr ("issuer_logo_" +:+ uuid_str u +:+ img_ext));
      mret image
  end.

Definition create (validated_data : dict) : M pyval :=
  '(staff, validated_data) ← lift (dict_pop validated_data "staff_items");
  new_issuer ← DetailSerializerV2.create validated_data;
  _ ← setattr new_issuer "staff_items" staff;
  mret new_issuer.

(** [create] with the caller's dictionary made explicit.  [validated_data]
    is passed by reference and [pop] changes it in place, so a call also
    decides what that dictionary holds afterwards: the second component. *)
Definition create_in_place (validated_data : dict) (w : world)
    : result pyval * dict * world :=
  match dict_pop validated_data "staff_items" with
  | Raise e => (Raise e, validated_data, w)
  | Ok (staff, validated_data) =>
      let '(r, w') :=
        (new_issuer ← DetailSerializerV2.create validated_data;
         _ ← setattr new_issuer "staff_items" staff;
         mret new_issuer) w in
      (r, validated_data, w')
  end.

End IssuerSerializerV2.

(** ** [BadgeClassSerializerV2] *)

Module BadgeClassSerializerV2.

(** The [source] keys of the writable fields, in declaration order: the
    keys a validated payload of this serializer can hold. *)
Definition writable_sources : list string :=
  ["cached_issuer"; "name"; "image"; "description"; "criteria_url";
   "criteria_text"; "cached_alignments"; "tag_items"].

Definition validated (validated_data : dict) : Prop :=
  forall k, is_Some (validated_data !! k) -> k ∈ writable_sources.

Definition update (instance : pyval) (validated_data : dict) : M pyval :=
  validated_data ←
    (if dict_contains validated_data "cached_issuer"
     then '(_, validated_data) ← lift (dict_pop validated_data "cached_issuer");
          mret validated_data
     else mret validated_data);
  DetailSerializerV2.update instance validated_data.

Definition create (context validated_data : dict) : M pyval :=
  validated_data ←
    (if dict_contains validated_data "cached_issuer"
     then '(issuer, validated_data) ← lift (dict_pop validated_data "cached_issuer");
          mret (<["issuer" := issuer]> validated_data)
     else if dict_contains context "issuer"
     then mret (<["issuer" := dict_get context "issuer"]> validated_data)
     else raise (ValidationError (DDict [("issuer", DMsg "This field is required")])));
  DetailSerializerV2.create validated_data.

(** [create] with the caller's dictionary made explicit: the [pop] and the
    item assignment change [validated_data] in place. *)
Definition create_in_place (context validated_data : dict) (w : world)
    : result pyval * dict * world :=
  if dict_contains validated_data "cached_issuer" then
    match dict_pop validated_data "cached_issuer" with
    | Raise e => (Raise e, validated_data, w)
    | Ok (issuer, validated_data) =>
        let validated_data := <["issuer" := issuer]> validated_data in
        let '(r, w') := DetailSerializerV2.create validated_data w in
        (r, validated_data, w')
    end
  else if dict_contains context "issuer" then
    let validated_data := <["issuer" := dict_get context "issuer"]> validated_data in
    let '(r, w') := DetailSerializerV2.create validated_data w in
    (r, validated_data, w')
  else
    (Raise (ValidationError (DDict [("issuer", DMsg "This field is required")])),
     validated_data, w).

End BadgeClassSerializerV2.

(** ** [BadgeRecipientSerializerV2] *)

Module BadgeRecipientSerializerV2.
Section WithImports.
Context `{Imports}.

(** [identity = serializers.CharField(source='recipient_identifier')] *)
Definition identity : Field :=
  {| field_name := "identity"; source := "recipient_identifier"; required := true;
     default_value := None; run_validation := CharField |}.

(** [type = serializers.ChoiceField(choices=..., default=RECIPIENT_TYPE_EMAIL,
    required=False, source='recipient_type')] *)
Definition type : Field :=
  {| field_name := "type"; source := "recipient_type"; required := false;
     default_value := Some (VStr RECIPIENT_TYPE_EMAIL); run_validation := ChoiceField |}.

Definition fields : list Field := [identity; type].

(** The class attribute [VALIDATORS]: a dictionary display inserts its
    entries from left to right, a later entry replacing an earlier one with
    the same key. *)
Definition VALIDATORS : gmap string (pyval -> result unit) :=
  <[RECIPIENT_TYPE_TELEPHONE := TelephoneValidator]>
    (<[RECIPIENT_TYPE_ID := URLValidator]>
       (<[RECIPIENT_TYPE_URL := URLValidator]>
          (<[RECIPIENT_TYPE_EMAIL := EmailValidator]> ∅))).

(** [key in VALIDATORS] together with [VALIDATORS[key]]: lists and
    dictionaries are unhashable; any other value that is not a string
    equals none of the keys. *)
Definition find_validator (key : pyval) : result (option (pyval -> result unit)) :=
  match key with
  | VStr s => Ok (VALIDATORS !! s)
  | VList _ | VDict _ => Raise TypeError
  | _ => Ok None
  end.

Definition validate (attrs : dict) : result dict :=
  let recipient_type := dict_get attrs "recipient_type" in
  let recipient_identifier := dict_get attrs "recipient_identifier" in
  found ← find_validator recipient_type;
  match found with
  | Some validator =>
      match validator recipient_identifier with
      | Ok _ => Ok attrs
      | Raise (DjangoValidationError message) => Raise (ValidationError (DMsg message))
      | Raise e => Raise e
      end
  | None => Ok attrs
  end.

End WithImports.
End BadgeRecipientSerializerV2.

(** ** [EvidenceItemSerializerV2] *)

Module EvidenceItemSerializerV2.

Definition validate (attrs : dict) : result dict :=
  if negb (truthy (py_or (dict_get attrs "evidence_url") (dict_get attrs "narrative")))
  then Raise (ValidationError (DMsg "Either url or narrative is required"))
  else Ok attrs.

(** What the two declared fields ([URLField] and [MarkdownCharField]) can
    put into [attrs]: a string; [None] is admitted as well. *)
Definition text_or_none (o : option pyval) : Prop :=
  match o with
  | None | Some VNone | Some (VStr _) => True
  | Some _ => False
  end.

Definition well_typed (attrs : dict) : Prop :=
  text_or_none (attrs !! "evidence_url") /\ text_or_none (attrs !! "narrative").

(** A value that is missing, [None] or the empty string. *)
Definition empty_value (o : option pyval) : Prop :=
  o = None \/ o = Some VNone \/ o = Some (VStr "").

End EvidenceItemSerializerV2.

(** ** [BadgeInstanceSerializerV2] *)

Module BadgeInstanceSerializerV2.

Definition update (instance : pyval) (validated_data : dict) : M pyval :=
  mret instance.

Definition create (context validated_data : dict) : M pyval :=
  validated_data ←
    (if dict_contains validated_data "cached_badgeclass"
     then '(badgeclass, validated_data) ← lift (dict_pop validated_data "cached_badgeclass");
          mret (<["badgeclass" := badgeclass]> validated_data)
     else if dict_contains context "badgeclass"
     then mret (<["badgeclass" := dict_get context "badgeclass"]> validated_data)
     else raise (ValidationError (DDict [("badgeclass", DMsg "This field is required")])));
  badgeclass ← lift (dict_getitem validated_data "badgeclass");
  issuer ← getattr badgeclass "issuer";
  DetailSerializerV2.create (<["issuer" := issuer]> validated_data).

(** The badgeclass a creation call resolves: the payload's, else the
    context's. *)
Definition resolved_badgeclass (context validated_data : dict) : option pyval :=
  match validated_data !! "cached_badgeclass" with
  | Some b => Some b
  | None => context !! "badgeclass"
  end.

(** The rest of [create] once [validated_data] holds the badgeclass: the
    issuer is read from it, assigned, and the instance is created. *)
Definition create_from_badgeclass (validated_data : dict) (w : world)
    : result pyval * dict * world :=
  match dict_getitem validated_data "badgeclass" with
  | Raise e => (Raise e, validated_data, w)
  | Ok badgeclass =>
      match getattr badgeclass "issuer" w with
      | (Raise e, w') => (Raise e, validated_data, w')
      | (Ok issuer, w') =>
          let validated_data := <["issuer" := issuer]> validated_data in
          let '(r, w'') := DetailSerializerV2.create validated_data w' in
          (r, validated_data, w'')
      end
  end.

(** [create] with the caller's dictionary made explicit: the [pop] and the
    item assignments change [validated_data] in place, also when the call
    goes on to raise. *)
Definition create_in_place (context validated_data : dict) (w : world)
    : result pyval * dict * world :=
  if dict_contains validated_data "cached_badgeclass" then
    match dict_pop validated_data "cached_badgeclass" with
    | Raise e => (Raise e, validated_data, w)
    | Ok (badgeclass, validated_data) =>
        create_from_badgeclass (<["badgeclass" := badgeclass]> validated_data) w
    end
  else if dict_contains context "badgeclass" then
    create_from_badgeclass
      (<["badgeclass" := dict_get context "badgeclass"]> validated_data) w
  else
    (Raise (ValidationError (DDict [("badgeclass", DMsg "This field is required")])),
     validated_data, w).

End BadgeInstanceSerializerV2.

(** ** Migration [0018_auto_20190201_1745] *)

Module Migration0018.

(** The database as the migration sees it: the rows of [ApplicationInfo]
    by primary key, each row a dictionary of its fields; and the stream of
    values the random domain generator returns, with the number of calls
    made so far. *)
Record database : Type := Database {
  ApplicationInfo : gmap Z dict;
  random_domains : nat -> string;
  generated : nat
}.

(** Modelled from the spec: [generate_random_fake_badge_connect_domain] of
    [mainsite/utils.py], not among the source files: each call yields "a
    freshly generated random placeholder domain value", here the next value
    of the stream. *)
Definition generate_random_fake_badge_connect_domain (db : database) : string * database :=
  (random_domains db (generated db),
   {| ApplicationInfo := ApplicationInfo db; random_domains := random_domains db;
      generated := S (generated db) |}).

(** [row.save()] of an existing row: its fields are written under its key. *)
Definition save (pk : Z) (row : dict) (db : database) : database :=
  {| ApplicationInfo := <[pk := row]> (ApplicationInfo db);
     random_domains := random_domains db; generated := generated db |}.

(** The body of the loop. *)
Definition run_data_row (db : database) (entry : Z * dict) : database :=
  let '(pk, row) := entry in
  let '(domain, db) := generate_random_fake_badge_connect_domain db in
  let row := <["manifest_domain" := VStr domain]> row in
  save pk row db.

(** The order of two rows by primary key. *)
Definition by_primary_key (x y : Z * dict) : Prop := (x.1 <= y.1)%Z.

#[global] Instance by_primary_key_dec (x y : Z * dict) : Decision (by_primary_key x y) :=
  decide (x.1 <= y.1)%Z.

(** [ApplicationInfo.objects.all()]: the rows of the table, in ascending
    order of primary key. *)
Definition all_rows (db : database) : list (Z * dict) :=
  merge_sort by_primary_key (map_to_list (ApplicationInfo db)).

(** The query is read once, then the loop runs over what was read. *)
Definition run_data (db : database) : database :=
  foldl run_data_row db (all_rows db).

(** [migrations.RunPython.noop], the reverse operation. *)
Definition noop (db : database) : database := db.

End Migration0018.

(** ** Statements of the validation contracts *)

Section Contracts.
Context `{Imports}.

(** The four recipient type constants are pairwise different. *)
Definition distinct_recipient_types : Prop :=
  NoDup [RECIPIENT_TYPE_EMAIL; RECIPIENT_TYPE_URL; RECIPIENT_TYPE_ID;
         RECIPIENT_TYPE_TELEPHONE].

(** The dispatch the contract describes: the email format for [email], the
    URL format for both [url] and [id], the telephone format for
    [telephone]. *)
Inductive keyed_validator : string -> (pyval -> result unit) -> Prop :=
  | keyed_email : keyed_validator RECIPIENT_TYPE_EMAIL EmailValidator
  | keyed_url : keyed_validator RECIPIENT_TYPE_URL URLValidator
  | keyed_id : keyed_validator RECIPIENT_TYPE_ID URLValidator
  | keyed_telephone : keyed_validator RECIPIENT_TYPE_TELEPHONE TelephoneValidator.

(** The outcome of checking the recipient identifier of [attrs] with one
    format validator: [attrs] unchanged when the validator accepts, a
    validation error carrying the validator's message when it reports a
    format violation, and any other exception as it is. *)
Definition format_checked (validator : pyval -> result unit) (attrs : dict) : result dict :=
  match validator (dict_get attrs "recipient_identifier") with
  | Ok _ => Ok attrs
  | Raise (DjangoValidationError message) => Raise (ValidationError (DMsg message))
  | Raise e => Raise e
  end.

End Contracts.

(** The issuer a [BadgeClass] creation call resolves: the payload's, else
    the context's. *)
Definition resolved_issuer (context validated_data : dict) : option pyval :=
  match validated_data !! "cached_issuer" with
  | Some i => Some i
  | None => context !! "issuer"
  end.

(** ** A concrete environment, for examples *)

Definition contains_char (c : ascii) (s : string) : bool :=
  existsb (Ascii.eqb c) (list_ascii_of_string s).

Definition sample_format (ok : string -> bool) (message : string) (v : pyval) : result unit :=
  match v with
  | VStr s => if ok s then Ok tt else Raise (DjangoValidationError message)
  | _ => Raise (DjangoValidationError message)
  end.

Definition sample_text (v : pyval) : result pyval :=
  match v with
  | VStr s => Ok (VStr s)
  | _ => Raise (ValidationError (DMsg "Not a valid string."))
  end.

Definition sample_imports : Imports :=
  {| RECIPIENT_TYPE_EMAIL := "email";
     RECIPIENT_TYPE_URL := "url";
     RECIPIENT_TYPE_ID := "openBadgeId";
     RECIPIENT_TYPE_TELEPHONE := "telephone";
     EmailValidator := sample_format (contains_char "@") "Enter a valid email address.";
     URLValidator := sample_format (String.prefix "http") "Enter a valid URL.";
     TelephoneValidator := sample_format (String.prefix "+") "Enter a valid phone number.";
     CharField := sample_text;
     ChoiceField := sample_text |}.

Definition sample_world : world :=
  {| heap := {[ 0 := {[ "name" := VStr "photo.png"; "size" := VInt 2048 ]};
                1 := {[ "issuer" := VRef 2; "name" := VStr "Rocq 101" ]};
                2 := {[ "name" := VStr "Academy" ]} ]};
     urandom := fun k => (N.of_nat k + 0x0123456789abcdef0123456789abcdef)%N;
     draws := 0 |}.

Definition sample_database : Migration0018.database :=
  {| Migration0018.ApplicationInfo :=
       {[ 7%Z := {[ "manifest_domain" := VStr "old.example.test"; "name" := VStr "app" ]} ]};
     Migration0018.random_domains := fun k =>
       match k with
       | O => "d0.example.test"
       | _ => "d1.example.test"
       end;
     Migration0018.generated := 0 |}.

(** A generator that never repeats a value, and a table of two rows. *)
Fixpoint sample_label (k : nat) : string :=
  match k with
  | O => ".example.test"
  | S k' => String "x" (sample_label k')
  end.

Definition sample_database2 : Migration0018.database :=
  {| Migration0018.ApplicationInfo :=
       {[ 3%Z := {[ "name" := VStr "first" ]};
          5%Z := {[ "manifest_domain" := VStr "old.example.test"; "name" := VStr "second" ]} ]};
     Migration0018.random_domains := sample_label;
     Migration0018.generated := 4 |}.

(** The same table with a generator that always returns one value. *)
Definition sample_database3 : Migration0018.database :=
  {| Migration0018.ApplicationInfo := Migration0018.ApplicationInfo sample_database2;
     Migration0018.random_domains := fun _ => "same.example.test";
     Migration0018.generated := 0 |}.

(** * Properties *)

(** ** Dictionary and monad facts *)

Lemma dict_contains_true (d : dict) (k : string) (v : pyval) :
  d !! k = Some v -> dict_contains d k = true.
Proof.
  intros Hk. unfold dict_contains. apply bool_decide_eq_true. by exists v.
Qed.

Lemma dict_contains_false (d : dict) (k : string) :
  d !! k = None -> dict_contains d k = false.
Proof.
  intros Hk. unfold dict_contains. apply bool_decide_eq_false.
  rewrite Hk. by intros [? ?].
Qed.

Lemma dict_get_Some (d : dict) (k : string) (v : pyval) :
  d !! k = Some v -> dict_get d k = v.
Proof. intros Hk. unfold dict_get. by rewrite Hk. Qed.

Lemma dict_get_None (d : dict) (k : string) :
  d !! k = None -> dict_get d k = VNone.
Proof. intros Hk. unfold dict_get. by rewrite Hk. Qed.

(** ** [BadgeInstanceSerializerV2.update] *)

(** C1: updating a BadgeInstance returns the very instance it was given and
    leaves the world, hence every field of every object, as it was,
    whatever the validated payload holds. *)
Theorem BadgeInstance_update_is_noop (instance : pyval) (validated_data : dict) (w : world) :
  BadgeInstanceSerializerV2.update instance validated_data w = (Ok instance, w).
Proof. reflexivity. Qed.

(** ** [EvidenceItemSerializerV2.validate] *)

Lemma truthy_text_or_none (o : option pyval) :
  EvidenceItemSerializerV2.text_or_none o ->
  truthy (default VNone o) = false <-> EvidenceItemSerializerV2.empty_value o.
Proof.
  unfold EvidenceItemSerializerV2.empty_value.
  destruct o as [[| | |s| | |]|]; simpl; try tauto.
  intros _. destruct s as [|a s]; simpl.
  - split; [intros _; right; right | ]; reflexivity.
  - split; [discriminate | intros [?|[?|?]]; discriminate].
Qed.

(** C5: on attributes produced by the two declared fields, evidence
    validation raises its validation error exactly when both the url and
    the narrative are missing, [None] or empty, and returns the attributes
    unchanged exactly when one of them is not. *)
Theorem Evidence_validate_requires_url_or_narrative (attrs : dict) :
  EvidenceItemSerializerV2.well_typed attrs ->
  let both_empty :=
    EvidenceItemSerializerV2.empty_value (attrs !! "evidence_url") /\
    EvidenceItemSerializerV2.empty_value (attrs !! "narrative") in
  (EvidenceItemSerializerV2.validate attrs
     = Raise (ValidationError (DMsg "Either url or narrative is required"))
   <-> both_empty) /\
  (EvidenceItemSerializerV2.validate attrs = Ok attrs <-> ~ both_empty).
Proof.
  intros [Hu Hn] both_empty. subst both_empty.
  apply truthy_text_or_none in Hu, Hn.
  unfold EvidenceItemSerializerV2.validate, py_or, dict_get.
  destruct (truthy (default VNone (attrs !! "evidence_url"))) eqn:Eu; simpl;
    [ | destruct (truthy (default VNone (attrs !! "narrative"))) eqn:En; simpl ];
    try rewrite Eu; simpl; intuition (discriminate || congruence).
Qed.

Lemma Evidence_validate_witness :
  EvidenceItemSerializerV2.validate {[ "narrative" := VStr "" ]}
    = Raise (ValidationError (DMsg "Either url or narrative is required")) /\
  EvidenceItemSerializerV2.validate {[ "evidence_url" := VStr "http://e.org/a" ]}
    = Ok {[ "evidence_url" := VStr "http://e.org/a" ]}.
Proof.
  split.
  - apply (Evidence_validate_requires_url_or_narrative {[ "narrative" := VStr "" ]}).
    + split; vm_compute; exact I.
    + split; [left | right; right]; reflexivity.
  - apply (Evidence_validate_requires_url_or_narrative
             {[ "evidence_url" := VStr "http://e.org/a" ]}).
    + split; vm_compute; exact I.
    + intros [[Hu|[Hu|Hu]] _]; vm_compute in Hu; discriminate.
Defined.

(** ** [IssuerSerializerV2.create] *)

(** C9: when the validated data holds no [staff_items] entry, creating an
    Issuer raises [KeyError] and touches nothing; and the optional [staff]
    field, missing from a payload, is skipped without an error, leaving the
    validated data without that entry. *)
Theorem Issuer_create_without_staff_raises_KeyError (validated_data : dict) (w : world) :
  validated_data !! "staff_items" = None ->
  IssuerSerializerV2.create validated_data w = (Raise (KeyError "staff_items"), w) /\
  (forall items data, data !! "staff" = None ->
     run_field data (validated_data, []) (IssuerSerializerV2.staff items)
       = Ok (validated_data, [])).
Proof.
  intros Hstaff. split.
  - unfold IssuerSerializerV2.create, mbind, M_bind, lift, dict_pop.
    by rewrite Hstaff.
  - intros items data Hdata. unfold run_field. simpl. by rewrite Hdata.
Qed.

Lemma Issuer_create_without_staff_witness :
  IssuerSerializerV2.create {[ "name" := VStr "Academy" ]} sample_world
    = (Raise (KeyError "staff_items"), sample_world) /\
  (forall items data, data !! "staff" = None ->
     run_field data ({[ "name" := VStr "Academy" ]}, []) (IssuerSerializerV2.staff items)
       = Ok ({[ "name" := VStr "Academy" ]}, [])).
Proof.
  apply (Issuer_create_without_staff_raises_KeyError {[ "name" := VStr "Academy" ]}).
  reflexivity.
Defined.

(** ** [BadgeRecipientSerializerV2.validate] *)

Section Recipient.
Context `{Imports}.

Lemma find_validator_keyed (t : string) (validator : pyval -> result unit) :
  distinct_recipient_types ->
  keyed_validator t validator ->
  BadgeRecipientSerializerV2.find_validator (VStr t) = Ok (Some validator).
Proof.
  unfold distinct_recipient_types. intros Hdistinct Hkeyed.
  repeat match goal with
         | Hd : NoDup (_ :: _) |- _ => apply NoDup_cons in Hd; destruct Hd
         end.
  repeat match goal with
         | Hn : _ ∉ _ :: _ |- _ => apply not_elem_of_cons in Hn; destruct Hn
         end.
  unfold BadgeRecipientSerializerV2.find_validator,
    BadgeRecipientSerializerV2.VALIDATORS.
  f_equal.
  destruct Hkeyed; simplify_map_eq; reflexivity.
Qed.

Lemma validate_keyed (attrs : dict) (t : string) (validator : pyval -> result unit) :
  distinct_recipient_types ->
  attrs !! "recipient_type" = Some (VStr t) ->
  keyed_validator t validator ->
  BadgeRecipientSerializerV2.validate attrs = format_checked validator attrs.
Proof.
  intros Hdistinct Htype Hkeyed.
  unfold BadgeRecipientSerializerV2.validate.
  rewrite (dict_get_Some _ _ _ Htype).
  rewrite (find_validator_keyed t validator Hdistinct Hkeyed).
  reflexivity.
Qed.

Lemma format_checked_violation (attrs : dict) (validator : pyval -> result unit)
    (message : string) :
  validator (dict_get attrs "recipient_identifier") = Raise (DjangoValidationError message) ->
  format_checked validator attrs = Raise (ValidationError (DMsg message)).
Proof. unfold format_checked. by intros ->. Qed.

(** C2: when the four type constants are distinct and the recipient type of
    [attrs] is one of them, validation checks the recipient identifier with
    the validator keyed by that type (email; URL for url and for id;
    telephone): a format violation becomes a validation error carrying the
    validator's message, and otherwise [attrs] comes back unchanged. *)
Theorem Recipient_validate_dispatches_by_type
    (attrs : dict) (t : string) (validator : pyval -> result unit) :
  distinct_recipient_types ->
  attrs !! "recipient_type" = Some (VStr t) ->
  keyed_validator t validator ->
  BadgeRecipientSerializerV2.validate attrs = format_checked validator attrs /\
  (validator (dict_get attrs "recipient_identifier") = Ok tt ->
   BadgeRecipientSerializerV2.validate attrs = Ok attrs) /\
  (forall message,
     validator (dict_get attrs "recipient_identifier")
       = Raise (DjangoValidationError message) ->
     BadgeRecipientSerializerV2.validate attrs = Raise (ValidationError (DMsg message))).
Proof.
  intros Hdistinct Htype Hkeyed.
  rewrite (validate_keyed attrs t validator Hdistinct Htype Hkeyed).
  split; [reflexivity | split].
  - unfold format_checked. by intros ->.
  - intros message. apply format_checked_violation.
Qed.

(** C10: a recipient payload without a type, whose identity the character
    field accepts, is deserialised with the email type filled in, and
    validation then checks the identity with the email validator, so an
    identity that violates the email format is rejected with the
    validator's message. *)
Theorem Recipient_type_defaults_to_email (data : dict) (v ident : pyval) :
  distinct_recipient_types ->
  data !! "type" = None ->
  data !! "identity" = Some v ->
  CharField v = Ok ident ->
  let attrs : dict :=
    <["recipient_type" := VStr RECIPIENT_TYPE_EMAIL]>
      (<["recipient_identifier" := ident]> ∅) in
  to_internal_value BadgeRecipientSerializerV2.fields data = Ok attrs /\
  BadgeRecipientSerializerV2.validate attrs = format_checked EmailValidator attrs /\
  (forall message,
     EmailValidator ident = Raise (DjangoValidationError message) ->
     BadgeRecipientSerializerV2.validate attrs = Raise (ValidationError (DMsg message))).
Proof.
  intros Hdistinct Htype Hidentity Hchar attrs.
  assert (attrs !! "recipient_type" = Some (VStr RECIPIENT_TYPE_EMAIL)) as Hty
    by (subst attrs; by simplify_map_eq).
  assert (dict_get attrs "recipient_identifier" = ident) as Hid
    by (subst attrs; unfold dict_get; by simplify_map_eq).
  pose proof (validate_keyed attrs _ _ Hdistinct Hty keyed_email) as Hvalidate.
  split; [ | split ].
  - unfold to_internal_value, BadgeRecipientSerializerV2.fields, run_fields.
    unfold run_field at 1. simpl. rewrite Hidentity, Hchar. simpl.
    unfold run_field. simpl. rewrite Htype. reflexivity.
  - exact Hvalidate.
  - intros message Hmessage. rewrite Hvalidate.
    apply format_checked_violation. by rewrite Hid.
Qed.

End Recipient.

Lemma sample_types_distinct : @distinct_recipient_types sample_imports.
Proof. unfold distinct_recipient_types. apply (bool_decide_unpack _). vm_compute. exact I. Qed.

Lemma Recipient_validate_witness :
  @BadgeRecipientSerializerV2.validate sample_imports
     {[ "recipient_type" := VStr "openBadgeId"; "recipient_identifier" := VStr "badge 7" ]}
    = Raise (ValidationError (DMsg "Enter a valid URL.")) /\
  @BadgeRecipientSerializerV2.validate sample_imports
     {[ "recipient_type" := VStr "telephone"; "recipient_identifier" := VStr "+15550100" ]}
    = Ok {[ "recipient_type" := VStr "telephone"; "recipient_identifier" := VStr "+15550100" ]}.
Proof.
  split.
  - apply (@Recipient_validate_dispatches_by_type sample_imports
             {[ "recipient_type" := VStr "openBadgeId";
                "recipient_identifier" := VStr "badge 7" ]}
             "openBadgeId" (@URLValidator sample_imports)).
    + exact sample_types_distinct.
    + reflexivity.
    + exact (@keyed_id sample_imports).
    + reflexivity.
  - apply (@Recipient_validate_dispatches_by_type sample_imports
             {[ "recipient_type" := VStr "telephone";
                "recipient_identifier" := VStr "+15550100" ]}
             "telephone" (@TelephoneValidator sample_imports)).
    + exact sample_types_distinct.
    + reflexivity.
    + exact (@keyed_telephone sample_imports).
    + reflexivity.
Defined.

Lemma Recipient_type_defaults_witness :
  @to_internal_value (@BadgeRecipientSerializerV2.fields sample_imports)
     {[ "identity" := VStr "nobody" ]}
    = Ok {[ "recipient_type" := VStr "email"; "recipient_identifier" := VStr "nobody" ]} /\
  @BadgeRecipientSerializerV2.validate sample_imports
     {[ "recipient_type" := VStr "email"; "recipient_identifier" := VStr "nobody" ]}
    = Raise (ValidationError (DMsg "Enter a valid email address.")).
Proof.
  assert (({[ "identity" := VStr "nobody" ]} : dict) !! "type" = None) as Htype
    by reflexivity.
  assert (({[ "identity" := VStr "nobody" ]} : dict) !! "identity" = Some (VStr "nobody"))
    as Hidentity by reflexivity.
  destruct (@Recipient_type_defaults_to_email sample_imports
              {[ "identity" := VStr "nobody" ]} (VStr "nobody") (VStr "nobody")
              sample_types_distinct Htype Hidentity eq_refl) as (Hfields & _ & Hreject).
  split.
  - exact Hfields.
  - apply Hreject. reflexivity.
Defined.

(** ** Heap facts *)

Lemma fresh_loc_unused (w : world) : heap w !! fresh (dom (heap w)) = None.
Proof. apply not_elem_of_dom. apply is_fresh. Qed.

Lemma getattr_alloc (o : dict) (attr : string) (x : pyval) (w : world) :
  o !! attr = Some x ->
  let l := fresh (dom (heap w)) in
  let w' := set_heap (<[l := o]> (heap w)) w in
  getattr (VRef l) attr w' = (Ok x, w').
Proof.
  intros Hattr l w'. unfold getattr. subst w'. simpl.
  rewrite lookup_insert_eq. by rewrite Hattr.
Qed.

Lemma getattr_after_alloc (v : pyval) (attr : string) (x : pyval) (o : dict) (w : world) :
  getattr v attr w = (Ok x, w) ->
  let w' := set_heap (<[fresh (dom (heap w)) := o]> (heap w)) w in
  getattr v attr w' = (Ok x, w').
Proof.
  intros Hget w'. subst w'. unfold getattr in *. destruct v; try discriminate.
  simpl. destruct (heap w !! l) as [ol|] eqn:Hl; [ | discriminate ].
  rewrite lookup_insert_ne.
  - rewrite Hl. destruct (ol !! attr); [ | discriminate ]. congruence.
  - intros Heq. pose proof (fresh_loc_unused w) as Hfresh.
    rewrite Heq in Hfresh. congruence.
Qed.

Lemma getattr_result (v : pyval) (attr : string) (w : world) :
  (exists x, getattr v attr w = (Ok x, w)) \/
  getattr v attr w = (Raise (AttributeError attr), w).
Proof.
  unfold getattr. destruct v; auto.
  destruct (heap w !! l) as [o|]; auto.
  destruct (o !! attr) as [x|]; eauto.
Qed.

(** ** [BadgeClassSerializerV2.create] *)

(** C3: creating a BadgeClass resolves the issuer from the payload first
    and from the context second.  With neither present it raises the
    validation error keyed by [issuer] and changes nothing; otherwise it
    succeeds with a new object whose [issuer] attribute is the resolved
    issuer. *)
Theorem BadgeClass_create_resolves_issuer (context validated_data : dict) (w : world) :
  (resolved_issuer context validated_data = None <->
   validated_data !! "cached_issuer" = None /\ context !! "issuer" = None) /\
  match resolved_issuer context validated_data with
  | None =>
      BadgeClassSerializerV2.create context validated_data w
        = (Raise (ValidationError (DDict [("issuer", DMsg "This field is required")])), w)
  | Some issuer =>
      exists l w',
        heap w !! l = None /\
        BadgeClassSerializerV2.create context validated_data w = (Ok (VRef l), w') /\
        heap w' = <[l := <["issuer" := issuer]> (delete "cached_issuer" validated_data)]>
                    (heap w) /\
        getattr (VRef l) "issuer" w' = (Ok issuer, w')
  end.
Proof.
  unfold resolved_issuer, BadgeClassSerializerV2.create.
  destruct (validated_data !! "cached_issuer") as [i|] eqn:Hpayload.
  - split; [ split; [discriminate | intros [? _]; discriminate] | ].
    rewrite (dict_contains_true _ _ _ Hpayload).
    unfold mbind, M_bind, lift, dict_pop. rewrite Hpayload. simpl.
    unfold DetailSerializerV2.create, alloc.
    eexists _, _. split; [apply fresh_loc_unused | ].
    split; [reflexivity | ]. split; [reflexivity | ].
    apply getattr_alloc. by simplify_map_eq.
  - rewrite (dict_contains_false _ _ Hpayload).
    destruct (context !! "issuer") as [i|] eqn:Hcontext.
    + split; [ split; [discriminate | intros [_ ?]; discriminate] | ].
      rewrite (dict_contains_true _ _ _ Hcontext), (dict_get_Some _ _ _ Hcontext).
      unfold mbind, M_bind, mret, M_ret. simpl.
      unfold DetailSerializerV2.create, alloc.
      eexists _, _. split; [apply fresh_loc_unused | ].
      split; [reflexivity | ]. split.
      * simpl. by rewrite (delete_id _ _ Hpayload).
      * apply getattr_alloc. by simplify_map_eq.
    + split; [ by split | ].
      rewrite (dict_contains_false _ _ Hcontext). reflexivity.
Qed.

(** ** [BadgeClassSerializerV2.update] *)

Lemma validated_no_issuer (validated_data : dict) :
  BadgeClassSerializerV2.validated validated_data -> validated_data !! "issuer" = None.
Proof.
  intros Hvalidated. destruct (validated_data !! "issuer") as [x|] eqn:Hissuer; [ | done ].
  exfalso. specialize (Hvalidated "issuer" (ex_intro _ x Hissuer)).
  apply list_elem_of_In in Hvalidated. simpl in Hvalidated.
  intuition discriminate.
Qed.

(** C6: on a validated payload, updating a BadgeClass succeeds and leaves
    the instance's [issuer] (and [cached_issuer]) as before, even when the
    payload carries an issuer; every other payload entry is set on the
    instance, and attributes outside the payload keep their values. *)
Theorem BadgeClass_update_keeps_issuer (l : loc) (o validated_data : dict) (w : world) :
  heap w !! l = Some o ->
  BadgeClassSerializerV2.validated validated_data ->
  exists o',
    BadgeClassSerializerV2.update (VRef l) validated_data w
      = (Ok (VRef l), set_heap (<[l := o']> (heap w)) w) /\
    o' !! "issuer" = o !! "issuer" /\
    o' !! "cached_issuer" = o !! "cached_issuer" /\
    (forall k, k <> "cached_issuer" ->
       o' !! k = match validated_data !! k with
                 | Some v => Some v
                 | None => o !! k
                 end).
Proof.
  intros Hl Hvalidated. apply validated_no_issuer in Hvalidated.
  exists (delete "cached_issuer" validated_data ∪ o).
  split; [ | split; [ | split ] ].
  - unfold BadgeClassSerializerV2.update.
    destruct (validated_data !! "cached_issuer") as [i|] eqn:Hpayload.
    + rewrite (dict_contains_true _ _ _ Hpayload).
      unfold mbind, M_bind, lift, dict_pop. rewrite Hpayload. simpl.
      by rewrite Hl.
    + rewrite (dict_contains_false _ _ Hpayload).
      unfold mbind, M_bind, mret, M_ret. simpl.
      by rewrite Hl, (delete_id _ _ Hpayload).
  - apply lookup_union_r. by rewrite lookup_delete_ne.
  - apply lookup_union_r. by rewrite lookup_delete_eq.
  - intros k Hk.
    destruct (validated_data !! k) as [v|] eqn:Hv.
    + apply lookup_union_Some_l. by rewrite lookup_delete_ne.
    + apply lookup_union_r. by rewrite lookup_delete_ne.
Qed.

Lemma BadgeClass_update_witness :
  exists o',
    BadgeClassSerializerV2.update (VRef 1)
      {[ "cached_issuer" := VRef 0; "name" := VStr "Rocq 102" ]} sample_world
      = (Ok (VRef 1), set_heap (<[1 := o']> (heap sample_world)) sample_world) /\
    o' !! "issuer" = Some (VRef 2) /\
    o' !! "name" = Some (VStr "Rocq 102").
Proof.
  destruct (BadgeClass_update_keeps_issuer 1
              {[ "issuer" := VRef 2; "name" := VStr "Rocq 101" ]}
              {[ "cached_issuer" := VRef 0; "name" := VStr "Rocq 102" ]} sample_world)
    as (o' & Hupdate & Hissuer & _ & Hother).
  - reflexivity.
  - intros k [x Hk]. apply list_elem_of_In.
    destruct (decide (k = "cached_issuer")) as [->|Hne1]; [simpl; tauto | ].
    destruct (decide (k = "name")) as [->|Hne2]; [simpl; tauto | ].
    by simplify_map_eq.
  - exists o'. split; [exact Hupdate | split].
    + exact Hissuer.
    + apply (Hother "name"). discriminate.
Defined.

(** ** [BadgeInstanceSerializerV2.create] *)

(** C4: creating a BadgeInstance resolves the badgeclass from the payload
    first and from the context second.  With neither present, and only
    then, it raises the validation error keyed by [badgeclass].  Otherwise
    it reads the badgeclass's issuer: when that read fails the failure is
    an [AttributeError], and when it succeeds the call succeeds with a new
    object whose [issuer] attribute is the issuer of the resolved
    badgeclass and whose [badgeclass] attribute is that badgeclass. *)
Theorem BadgeInstance_create_resolves_badgeclass (context validated_data : dict) (w : world) :
  (BadgeInstanceSerializerV2.resolved_badgeclass context validated_data = None <->
   validated_data !! "cached_badgeclass" = None /\ context !! "badgeclass" = None) /\
  match BadgeInstanceSerializerV2.resolved_badgeclass context validated_data with
  | None =>
      BadgeInstanceSerializerV2.create context validated_data w
        = (Raise (ValidationError (DDict [("badgeclass", DMsg "This field is required")])), w)
  | Some badgeclass =>
      match getattr badgeclass "issuer" w with
      | (Ok issuer, _) =>
          exists l w',
            heap w !! l = None /\
            BadgeInstanceSerializerV2.create context validated_data w = (Ok (VRef l), w') /\
            getattr (VRef l) "issuer" w' = (Ok issuer, w') /\
            getattr (VRef l) "badgeclass" w' = (Ok badgeclass, w') /\
            getattr badgeclass "issuer" w' = (Ok issuer, w')
      | (Raise e, _) =>
          e = AttributeError "issuer" /\
          BadgeInstanceSerializerV2.create context validated_data w = (Raise e, w)
      end
  end.
Proof.
  assert (forall badgeclass (data : dict),
            data !! "badgeclass" = Some badgeclass ->
            match getattr badgeclass "issuer" w with
            | (Ok issuer, _) =>
                exists l w',
                  heap w !! l = None /\
                  (badgeclass' ← lift (dict_getitem data "badgeclass");
                   issuer ← getattr badgeclass' "issuer";
                   DetailSerializerV2.create (<["issuer" := issuer]> data)) w
                    = (Ok (VRef l), w') /\
                  getattr (VRef l) "issuer" w' = (Ok issuer, w') /\
                  getattr (VRef l) "badgeclass" w' = (Ok badgeclass, w') /\
                  getattr badgeclass "issuer" w' = (Ok issuer, w')
            | (Raise e, _) =>
                e = AttributeError "issuer" /\
                (badgeclass' ← lift (dict_getitem data "badgeclass");
                 issuer ← getattr badgeclass' "issuer";
                 DetailSerializerV2.create (<["issuer" := issuer]> data)) w
                  = (Raise e, w)
            end) as Hrest.
  { intros badgeclass data Hdata.
    unfold mbind, M_bind, lift, dict_getitem. rewrite Hdata.
    destruct (getattr_result badgeclass "issuer" w) as [[issuer Hget]|Hget];
      rewrite Hget; [ | by split ].
    unfold DetailSerializerV2.create, alloc.
    eexists _, _. split; [apply fresh_loc_unused | ].
    split; [reflexivity | ]. split; [ | split ].
    - apply getattr_alloc. by simplify_map_eq.
    - apply getattr_alloc. by simplify_map_eq.
    - by apply getattr_after_alloc. }
  unfold BadgeInstanceSerializerV2.resolved_badgeclass, BadgeInstanceSerializerV2.create.
  destruct (validated_data !! "cached_badgeclass") as [b|] eqn:Hpayload.
  - split; [ split; [discriminate | intros [? _]; discriminate] | ].
    rewrite (dict_contains_true _ _ _ Hpayload).
    specialize (Hrest b (<["badgeclass" := b]> (delete "cached_badgeclass" validated_data))
                  (lookup_insert_eq _ _ _)).
    unfold mbind at 1, M_bind at 1. unfold mbind at 1, M_bind at 1.
    unfold lift at 1, dict_pop. rewrite Hpayload. simpl. exact Hrest.
  - rewrite (dict_contains_false _ _ Hpayload).
    destruct (context !! "badgeclass") as [b|] eqn:Hcontext.
    + split; [ split; [discriminate | intros [_ ?]; discriminate] | ].
      rewrite (dict_contains_true _ _ _ Hcontext), (dict_get_Some _ _ _ Hcontext).
      specialize (Hrest b (<["badgeclass" := b]> validated_data) (lookup_insert_eq _ _ _)).
      unfold mbind at 1, M_bind at 1. simpl. exact Hrest.
    + split; [ by split | ].
      rewrite (dict_contains_false _ _ Hcontext). reflexivity.
Qed.

(** ** UUID text *)



Lemma hex_digit_is_hex (n : N) : is_hex_digit (hex_digit n) = true.
Proof.
  unfold hex_digit.
  repeat match goal with
         | |- context [match ?x with _ => _ end] => destruct x
         end; reflexivity.
Qed.


(** ** The UUID as a number *)












(** ** [IssuerSerializerV2.validate_image] *)

Lemma validate_image_None (w : world) :
  IssuerSerializerV2.validate_image VNone w = (Ok VNone, w).
Proof. reflexivity. Qed.



(** ** Migration [0018_auto_20190201_1745] *)

Section Migration.
Import Migration0018.

Lemma run_data_rows (rows : list (Z * dict)) (db : database) :
  NoDup rows.*1 ->
  let db' := foldl run_data_row db rows in
  generated db' = generated db + length rows /\
  random_domains db' = random_domains db /\
  (forall i pk row,
     rows !! i = Some (pk, row) ->
     ApplicationInfo db' !! pk
       = Some (<["manifest_domain" := VStr (random_domains db (generated db + i))]> row)) /\
  (forall pk, pk ∉ rows.*1 -> ApplicationInfo db' !! pk = ApplicationInfo db !! pk).
Proof.
  revert db. induction rows as [|[pk0 row0] rows IH]; intros db Hnodup db'.
  - subst db'. simpl. split; [lia | ]. split; [reflexivity | ]. split; [ | done ].
    intros i pk row Hi. by rewrite lookup_nil in Hi.
  - simpl in Hnodup. apply NoDup_cons in Hnodup as [Hfresh Hnodup].
    subst db'. simpl foldl.
    destruct (IH (run_data_row db (pk0, row0)) Hnodup) as (Hgen & Hdom & Hrows & Hother).
    simpl in Hgen, Hdom, Hrows, Hother.
    split; [ simpl; lia | ]. split; [ exact Hdom | ]. split.
    + intros [|i] pk row Hi; simpl in Hi.
      * injection Hi as -> ->.
        rewrite (Hother pk Hfresh). simpl.
        rewrite lookup_insert_eq. by rewrite Nat.add_0_r.
      * rewrite (Hrows i pk row Hi). do 4 f_equal. lia.
    + intros pk Hpk. simpl in Hpk. apply not_elem_of_cons in Hpk as [Hne Hpk].
      rewrite (Hother pk Hpk). simpl. by rewrite lookup_insert_ne.
Qed.

Lemma all_rows_Permutation (db : database) :
  all_rows db ≡ₚ map_to_list (ApplicationInfo db).
Proof. apply merge_sort_Permutation. Qed.

Lemma all_rows_NoDup (db : database) : NoDup (all_rows db).*1.
Proof. rewrite all_rows_Permutation. apply NoDup_fst_map_to_list. Qed.

Lemma all_rows_elem_of (db : database) (pk : Z) (row : dict) :
  (pk, row) ∈ all_rows db <-> ApplicationInfo db !! pk = Some row.
Proof. rewrite all_rows_Permutation. apply elem_of_map_to_list. Qed.

Lemma all_rows_length (db : database) : length (all_rows db) = size (ApplicationInfo db).
Proof. rewrite all_rows_Permutation. apply length_map_to_list. Qed.

Lemma by_primary_key_sorted_lookup (rows : list (Z * dict)) (i j : nat) (x y : Z * dict) :
  StronglySorted by_primary_key rows ->
  rows !! i = Some x -> rows !! j = Some y -> i < j -> (x.1 <= y.1)%Z.
Proof.
  intros Hsorted. revert i j x y. induction Hsorted as [|a rows Hsorted IH Hall];
    intros i j x y Hi Hj Hlt.
  - by rewrite lookup_nil in Hi.
  - destruct j as [|j]; [lia | ]. simpl in Hj. destruct i as [|i]; simpl in Hi.
    + injection Hi as <-. rewrite Forall_forall in Hall.
      apply (Hall y). apply list_elem_of_lookup. by exists j.
    + apply (IH i j x y Hi Hj). lia.
Qed.

(** The rows are read in strictly ascending order of primary key. *)
Lemma all_rows_ascending (db : database) (i j : nat) (pk1 pk2 : Z) (row1 row2 : dict) :
  all_rows db !! i = Some (pk1, row1) ->
  all_rows db !! j = Some (pk2, row2) ->
  i < j -> (pk1 < pk2)%Z.
Proof.
  intros Hi Hj Hlt.
  assert (StronglySorted by_primary_key (all_rows db)) as Hsorted.
  { apply StronglySorted_merge_sort.
    - intros x y z. unfold by_primary_key. lia.
    - intros x y. unfold by_primary_key. lia. }
  pose proof (by_primary_key_sorted_lookup _ _ _ _ _ Hsorted Hi Hj Hlt) as Hle.
  simpl in Hle.
  assert (pk1 <> pk2) as Hne; [ | lia ].
  intros ->. pose proof (all_rows_NoDup db) as Hnodup.
  assert (i = j); [ | lia ].
  apply (NoDup_lookup _ i j pk2 Hnodup); rewrite list_lookup_fmap.
  - by rewrite Hi.
  - by rewrite Hj.
Qed.

(** C8: the migration gives every existing row of [ApplicationInfo] the
    value of its own call of the random domain generator as
    [manifest_domain] and saves it: the table keeps its keys, each row
    keeps every other field, the generator is called once per row, and the
    reverse operation changes nothing.  The rows are the rows of the
    table, taken in ascending order of primary key, and the row at position
    [i] of that order receives the value of the [i]-th call made. *)
Theorem run_data_rewrites_only_manifest_domain (db : database) :
  let rows := all_rows db in
  (forall i pk row,
     rows !! i = Some (pk, row) ->
     ApplicationInfo (run_data db) !! pk
       = Some (<["manifest_domain" := VStr (random_domains db (generated db + i))]> row)) /\
  dom (ApplicationInfo (run_data db)) = dom (ApplicationInfo db) /\
  (forall pk row,
     ApplicationInfo db !! pk = Some row ->
     exists row',
       ApplicationInfo (run_data db) !! pk = Some row' /\
       (exists domain, row' !! "manifest_domain" = Some (VStr domain)) /\
       (forall field, field <> "manifest_domain" -> row' !! field = row !! field)) /\
  generated (run_data db) = generated db + length rows /\
  noop db = db /\
  (forall pk row, (pk, row) ∈ rows <-> ApplicationInfo db !! pk = Some row) /\
  length rows = size (ApplicationInfo db) /\
  (forall i j pk1 row1 pk2 row2,
     rows !! i = Some (pk1, row1) -> rows !! j = Some (pk2, row2) ->
     i < j -> (pk1 < pk2)%Z).
Proof.
  cbv zeta. unfold run_data. set (rows := all_rows db).
  destruct (run_data_rows rows db (all_rows_NoDup db)) as (Hgen & _ & Hrows & Hother).
  assert (forall pk row,
            ApplicationInfo db !! pk = Some row ->
            exists i, rows !! i = Some (pk, row)) as Hindex.
  { intros pk row Hpk. apply list_elem_of_lookup. by apply all_rows_elem_of. }
  split; [exact Hrows | ].
  split; [ | split; [ | split; [exact Hgen | split; [reflexivity | ] ] ] ].
  - apply set_eq. intros pk. rewrite !elem_of_dom.
    destruct (ApplicationInfo db !! pk) as [row|] eqn:Hpk.
    + destruct (Hindex pk row Hpk) as [i Hi]. rewrite (Hrows i pk row Hi).
      split; intros _; eauto.
    + rewrite Hother; [ by rewrite Hpk | ].
      intros Hin. apply list_elem_of_fmap in Hin as ([pk' row'] & -> & Hin).
      apply all_rows_elem_of in Hin. simpl in Hpk. congruence.
  - intros pk row Hpk. destruct (Hindex pk row Hpk) as [i Hi].
    eexists. split; [exact (Hrows i pk row Hi) | ]. split.
    + eexists. apply lookup_insert_eq.
    + intros field Hfield. by rewrite lookup_insert_ne.
  - split; [ apply all_rows_elem_of | ].
    split; [ apply all_rows_length | ].
    intros i j pk1 row1 pk2 row2. apply all_rows_ascending.
Qed.

End Migration.

(** ** Examples of creation and of the migration *)

Lemma BadgeClass_create_witness :
  (exists l w',
     BadgeClassSerializerV2.create {[ "issuer" := VRef 0 ]}
       {[ "cached_issuer" := VRef 2; "name" := VStr "Rocq 101" ]} sample_world
       = (Ok (VRef l), w') /\
     getattr (VRef l) "issuer" w' = (Ok (VRef 2), w')) /\
  BadgeClassSerializerV2.create ∅ {[ "name" := VStr "Rocq 101" ]} sample_world
    = (Raise (ValidationError (DDict [("issuer", DMsg "This field is required")])),
       sample_world).
Proof.
  split.
  - pose proof (BadgeClass_create_resolves_issuer {[ "issuer" := VRef 0 ]}
                  {[ "cached_issuer" := VRef 2; "name" := VStr "Rocq 101" ]} sample_world)
      as [_ Hcreate].
    assert (resolved_issuer {[ "issuer" := VRef 0 ]}
              {[ "cached_issuer" := VRef 2; "name" := VStr "Rocq 101" ]} = Some (VRef 2))
      as Hresolved by reflexivity.
    rewrite Hresolved in Hcreate.
    destruct Hcreate as (l & w' & _ & Hrun & _ & Hissuer).
    exists l, w'. split; [exact Hrun | exact Hissuer].
  - pose proof (BadgeClass_create_resolves_issuer ∅ {[ "name" := VStr "Rocq 101" ]}
                  sample_world) as [_ Hcreate].
    assert (resolved_issuer ∅ {[ "name" := VStr "Rocq 101" ]} = None)
      as Hresolved by reflexivity.
    rewrite Hresolved in Hcreate. exact Hcreate.
Defined.

Lemma BadgeInstance_create_witness :
  (exists l w',
     BadgeInstanceSerializerV2.create {[ "badgeclass" := VRef 1 ]}
       {[ "recipient_identifier" := VStr "a@b.org" ]} sample_world
       = (Ok (VRef l), w') /\
     getattr (VRef l) "issuer" w' = (Ok (VRef 2), w') /\
     getattr (VRef 1) "issuer" w' = (Ok (VRef 2), w')) /\
  BadgeInstanceSerializerV2.create ∅ {[ "recipient_identifier" := VStr "a@b.org" ]}
    sample_world
    = (Raise (ValidationError (DDict [("badgeclass", DMsg "This field is required")])),
       sample_world).
Proof.
  split.
  - pose proof (BadgeInstance_create_resolves_badgeclass {[ "badgeclass" := VRef 1 ]}
                  {[ "recipient_identifier" := VStr "a@b.org" ]} sample_world)
      as [_ Hcreate].
    assert (BadgeInstanceSerializerV2.resolved_badgeclass {[ "badgeclass" := VRef 1 ]}
              {[ "recipient_identifier" := VStr "a@b.org" ]} = Some (VRef 1))
      as Hresolved by reflexivity.
    rewrite Hresolved in Hcreate.
    assert (getattr (VRef 1) "issuer" sample_world = (Ok (VRef 2), sample_world))
      as Hissuer by reflexivity.
    rewrite Hissuer in Hcreate.
    destruct Hcreate as (l & w' & _ & Hrun & Hnew & _ & Hclass).
    exists l, w'. split; [exact Hrun | split; [exact Hnew | exact Hclass] ].
  - pose proof (BadgeInstance_create_resolves_badgeclass ∅
                  {[ "recipient_identifier" := VStr "a@b.org" ]} sample_world)
      as [_ Hcreate].
    assert (BadgeInstanceSerializerV2.resolved_badgeclass ∅
              {[ "recipient_identifier" := VStr "a@b.org" ]} = None)
      as Hresolved by reflexivity.
    rewrite Hresolved in Hcreate. exact Hcreate.
Defined.

Lemma run_data_witness :
  Migration0018.ApplicationInfo (Migration0018.run_data sample_database2) !! 3%Z
    = Some {[ "manifest_domain" := VStr "xxxx.example.test"; "name" := VStr "first" ]} /\
  Migration0018.ApplicationInfo (Migration0018.run_data sample_database2) !! 5%Z
    = Some {[ "manifest_domain" := VStr "xxxxx.example.test"; "name" := VStr "second" ]} /\
  dom (Migration0018.ApplicationInfo (Migration0018.run_data sample_database2))
    = dom (Migration0018.ApplicationInfo sample_database2) /\
  Migration0018.generated (Migration0018.run_data sample_database2) = 6.
Proof.
  destruct (run_data_rewrites_only_manifest_domain sample_database2)
    as (Hrows & Hdom & _ & Hgen & _).
  split; [ | split; [ | split; [exact Hdom | exact Hgen] ] ].
  - rewrite (Hrows 0 3%Z {[ "name" := VStr "first" ]}); reflexivity.
  - rewrite (Hrows 1 5%Z {[ "manifest_domain" := VStr "old.example.test";
                            "name" := VStr "second" ]}); reflexivity.
Defined.

(** * Further properties *)

(** ** Creation as a whole *)

Lemma BadgeClass_create_unfold (context validated_data : dict) (w : world) :
  BadgeClassSerializerV2.create context validated_data w
  = match resolved_issuer context validated_data with
    | None =>
        (Raise (ValidationError (DDict [("issuer", DMsg "This field is required")])), w)
    | Some issuer =>
        alloc (<["issuer" := issuer]> (delete "cached_issuer" validated_data)) w
    end.
Proof.
  unfold resolved_issuer, BadgeClassSerializerV2.create.
  destruct (validated_data !! "cached_issuer") as [i|] eqn:Hpayload.
  - rewrite (dict_contains_true _ _ _ Hpayload).
    unfold mbind, M_bind, lift, dict_pop. by rewrite Hpayload.
  - rewrite (dict_contains_false _ _ Hpayload).
    destruct (context !! "issuer") as [i|] eqn:Hcontext.
    + rewrite (dict_contains_true _ _ _ Hcontext), (dict_get_Some _ _ _ Hcontext).
      unfold mbind, M_bind, mret, M_ret. simpl.
      by rewrite (delete_id _ _ Hpayload).
    + by rewrite (dict_contains_false _ _ Hcontext).
Qed.

Lemma BadgeInstance_create_unfold (context validated_data : dict) (w : world) :
  BadgeInstanceSerializerV2.create context validated_data w
  = match BadgeInstanceSerializerV2.resolved_badgeclass context validated_data with
    | None =>
        (Raise (ValidationError (DDict [("badgeclass", DMsg "This field is required")])), w)
    | Some badgeclass =>
        match getattr badgeclass "issuer" w with
        | (Ok issuer, _) =>
            alloc (<["issuer" := issuer]>
                     (<["badgeclass" := badgeclass]>
                        (delete "cached_badgeclass" validated_data))) w
        | (Raise e, _) => (Raise e, w)
        end
    end.
Proof.
  unfold BadgeInstanceSerializerV2.resolved_badgeclass, BadgeInstanceSerializerV2.create.
  destruct (validated_data !! "cached_badgeclass") as [b|] eqn:Hpayload.
  - rewrite (dict_contains_true _ _ _ Hpayload).
    unfold mbind, M_bind, lift, dict_pop, dict_getitem. rewrite Hpayload. simpl.
    rewrite lookup_insert_eq.
    destruct (getattr_result b "issuer" w) as [[issuer Hget]|Hget]; by rewrite Hget.
  - rewrite (dict_contains_false _ _ Hpayload).
    destruct (context !! "badgeclass") as [b|] eqn:Hcontext.
    + rewrite (dict_contains_true _ _ _ Hcontext), (dict_get_Some _ _ _ Hcontext).
      unfold mbind, M_bind, mret, M_ret, lift, dict_getitem. simpl.
      rewrite lookup_insert_eq, (delete_id _ _ Hpayload).
      destruct (getattr_result b "issuer" w) as [[issuer Hget]|Hget]; by rewrite Hget.
    + by rewrite (dict_contains_false _ _ Hcontext).
Qed.

(** X1: when the validated data holds a [staff_items] entry, creating an
    Issuer succeeds without drawing entropy: the new object is at an
    address unused before, carries the staff as its [staff_items]
    attribute and every other entry of the validated data, and all other
    objects are as before. *)
Theorem Issuer_create_with_staff_succeeds (validated_data : dict) (staff : pyval) (w : world) :
  validated_data !! "staff_items" = Some staff ->
  exists l o,
    heap w !! l = None /\
    IssuerSerializerV2.create validated_data w
      = (Ok (VRef l), set_heap (<[l := o]> (heap w)) w) /\
    o !! "staff_items" = Some staff /\
    (forall k, k <> "staff_items" -> o !! k = validated_data !! k).
Proof.
  intros Hstaff.
  exists (fresh (dom (heap w))),
    (<["staff_items" := staff]> (delete "staff_items" validated_data)).
  split; [apply fresh_loc_unused | ]. split; [ | split ].
  - unfold IssuerSerializerV2.create, mbind, M_bind, lift, dict_pop.
    rewrite Hstaff. unfold DetailSerializerV2.create, alloc, setattr. simpl.
    rewrite lookup_insert_eq. unfold set_heap. simpl.
    by rewrite insert_insert_eq.
  - apply lookup_insert_eq.
  - intros k Hk. rewrite lookup_insert_ne by done. by rewrite lookup_delete_ne.
Qed.

Lemma Issuer_create_with_staff_witness :
  exists l o,
    IssuerSerializerV2.create
      {[ "name" := VStr "Academy"; "staff_items" := VList [VRef 1] ]} sample_world
      = (Ok (VRef l), set_heap (<[l := o]> (heap sample_world)) sample_world) /\
    o !! "staff_items" = Some (VList [VRef 1]) /\
    o !! "name" = Some (VStr "Academy").
Proof.
  destruct (Issuer_create_with_staff_succeeds
              {[ "name" := VStr "Academy"; "staff_items" := VList [VRef 1] ]}
              (VList [VRef 1]) sample_world) as (l & o & _ & Hrun & Hstaff & Hother).
  - reflexivity.
  - exists l, o. split; [exact Hrun | split; [exact Hstaff | ] ].
    rewrite (Hother "name") by discriminate. reflexivity.
Defined.

Lemma Issuer_create_in_place_agrees (validated_data : dict) (w : world) :
  let '(r, _, w') := IssuerSerializerV2.create_in_place validated_data w in
  IssuerSerializerV2.create validated_data w = (r, w').
Proof.
  unfold IssuerSerializerV2.create_in_place, IssuerSerializerV2.create.
  unfold mbind, M_bind, lift.
  destruct (dict_pop validated_data "staff_items") as [[staff data]|e]; [ | reflexivity ].
  unfold DetailSerializerV2.create, alloc, setattr. simpl.
  rewrite lookup_insert_eq. reflexivity.
Qed.

Lemma BadgeClass_create_in_place_agrees (context validated_data : dict) (w : world) :
  let '(r, _, w') := BadgeClassSerializerV2.create_in_place context validated_data w in
  BadgeClassSerializerV2.create context validated_data w = (r, w').
Proof.
  unfold BadgeClassSerializerV2.create_in_place, BadgeClassSerializerV2.create.
  destruct (dict_contains validated_data "cached_issuer").
  - unfold mbind, M_bind, lift.
    destruct (dict_pop validated_data "cached_issuer") as [[issuer data]|e];
      reflexivity.
  - destruct (dict_contains context "issuer"); reflexivity.
Qed.

Lemma BadgeInstance_create_from_badgeclass_agrees (data : dict) (w : world) :
  let '(r, _, w') := BadgeInstanceSerializerV2.create_from_badgeclass data w in
  (badgeclass ← lift (dict_getitem data "badgeclass");
   issuer ← getattr badgeclass "issuer";
   DetailSerializerV2.create (<["issuer" := issuer]> data)) w = (r, w').
Proof.
  unfold BadgeInstanceSerializerV2.create_from_badgeclass, mbind, M_bind, lift.
  destruct (dict_getitem data "badgeclass") as [b|e]; [ | reflexivity ].
  destruct (getattr b "issuer" w) as [[issuer|e] w']; reflexivity.
Qed.

Lemma BadgeInstance_create_in_place_agrees (context validated_data : dict) (w : world) :
  let '(r, _, w') := BadgeInstanceSerializerV2.create_in_place context validated_data w in
  BadgeInstanceSerializerV2.create context validated_data w = (r, w').
Proof.
  unfold BadgeInstanceSerializerV2.create_in_place, BadgeInstanceSerializerV2.create.
  destruct (dict_contains validated_data "cached_badgeclass").
  - unfold mbind at 1, M_bind at 1. unfold mbind at 1, M_bind at 1. unfold lift at 1.
    destruct (dict_pop validated_data "cached_badgeclass") as [[b data]|e];
      [ | reflexivity ].
    apply BadgeInstance_create_from_badgeclass_agrees.
  - destruct (dict_contains context "badgeclass"); [ | reflexivity ].
    unfold mbind at 1, M_bind at 1.
    apply (BadgeInstance_create_from_badgeclass_agrees
             (<["badgeclass" := dict_get context "badgeclass"]> validated_data) w).
Qed.

(** X2: a creation that raises creates and changes no object and draws no
    entropy.  What it may leave behind is a change to the caller's
    [validated_data], which the methods update in place.  An Issuer
    creation can only raise the [KeyError] for [staff_items], a BadgeClass
    creation only the validation error keyed by [issuer]; both leave the
    dictionary as it was.  A BadgeInstance creation raises the validation
    error keyed by [badgeclass], with the dictionary as it was, or an
    [AttributeError] for [issuer], and then the dictionary has already
    lost [cached_badgeclass] and gained the resolved [badgeclass].  The
    results and worlds are those of the [create] methods. *)
Theorem create_failure_leaves_objects_alone (context validated_data : dict) (w : world) :
  match IssuerSerializerV2.create_in_place validated_data w with
  | (Raise e, data, w') =>
      IssuerSerializerV2.create validated_data w = (Raise e, w') /\
      w' = w /\ data = validated_data /\ e = KeyError "staff_items"
  | (Ok r, _, w') => IssuerSerializerV2.create validated_data w = (Ok r, w')
  end /\
  match BadgeClassSerializerV2.create_in_place context validated_data w with
  | (Raise e, data, w') =>
      BadgeClassSerializerV2.create context validated_data w = (Raise e, w') /\
      w' = w /\ data = validated_data /\
      e = ValidationError (DDict [("issuer", DMsg "This field is required")])
  | (Ok r, _, w') => BadgeClassSerializerV2.create context validated_data w = (Ok r, w')
  end /\
  match BadgeInstanceSerializerV2.create_in_place context validated_data w with
  | (Raise e, data, w') =>
      BadgeInstanceSerializerV2.create context validated_data w = (Raise e, w') /\
      w' = w /\
      (e = ValidationError (DDict [("badgeclass", DMsg "This field is required")]) /\
       data = validated_data \/
       e = AttributeError "issuer" /\
       exists badgeclass,
         BadgeInstanceSerializerV2.resolved_badgeclass context validated_data
           = Some badgeclass /\
         data = <["badgeclass" := badgeclass]> (delete "cached_badgeclass" validated_data))
  | (Ok r, _, w') => BadgeInstanceSerializerV2.create context validated_data w = (Ok r, w')
  end.
Proof.
  split; [ | split ].
  - pose proof (Issuer_create_in_place_agrees validated_data w) as Hagree.
    destruct (IssuerSerializerV2.create_in_place validated_data w) as [[[r|e] data] w']
      eqn:Hrun; [exact Hagree | ].
    split; [exact Hagree | ].
    unfold IssuerSerializerV2.create_in_place, dict_pop in Hrun.
    destruct (validated_data !! "staff_items") as [staff|].
    + exfalso. revert Hrun.
      unfold mbind, M_bind, DetailSerializerV2.create, alloc, setattr. simpl.
      rewrite lookup_insert_eq. discriminate.
    + by injection Hrun as <- <- <-.
  - pose proof (BadgeClass_create_in_place_agrees context validated_data w) as Hagree.
    destruct (BadgeClassSerializerV2.create_in_place context validated_data w)
      as [[[r|e] data] w'] eqn:Hrun; [exact Hagree | ].
    split; [exact Hagree | ].
    unfold BadgeClassSerializerV2.create_in_place, dict_pop,
      DetailSerializerV2.create, alloc in Hrun.
    destruct (validated_data !! "cached_issuer") as [i|] eqn:Hpayload.
    + rewrite (dict_contains_true _ _ _ Hpayload) in Hrun. discriminate.
    + rewrite (dict_contains_false _ _ Hpayload) in Hrun.
      destruct (dict_contains context "issuer"); [discriminate | ].
      by injection Hrun as <- <- <-.
  - pose proof (BadgeInstance_create_in_place_agrees context validated_data w) as Hagree.
    destruct (BadgeInstanceSerializerV2.create_in_place context validated_data w)
      as [[[r|e] data] w'] eqn:Hrun; [exact Hagree | ].
    split; [exact Hagree | ].
    assert (forall b d,
              d !! "badgeclass" = Some b ->
              BadgeInstanceSerializerV2.create_from_badgeclass d w = (Raise e, data, w') ->
              w' = w /\ e = AttributeError "issuer" /\ data = d) as Hrest.
    { intros b d Hd. unfold BadgeInstanceSerializerV2.create_from_badgeclass, dict_getitem.
      rewrite Hd.
      destruct (getattr_result b "issuer" w) as [[issuer Hget]|Hget]; rewrite Hget.
      - unfold DetailSerializerV2.create, alloc. discriminate.
      - by intros [= <- <- <-]. }
    unfold BadgeInstanceSerializerV2.create_in_place,
      BadgeInstanceSerializerV2.resolved_badgeclass, dict_pop in *.
    destruct (validated_data !! "cached_badgeclass") as [b|] eqn:Hpayload.
    + rewrite (dict_contains_true _ _ _ Hpayload) in Hrun.
      destruct (Hrest b _ (lookup_insert_eq _ _ _) Hrun) as (-> & -> & ->).
      split; [reflexivity | right]. split; [reflexivity | ]. by exists b.
    + rewrite (dict_contains_false _ _ Hpayload) in Hrun.
      destruct (context !! "badgeclass") as [b|] eqn:Hcontext.
      * rewrite (dict_contains_true _ _ _ Hcontext), (dict_get_Some _ _ _ Hcontext) in Hrun.
        destruct (Hrest b _ (lookup_insert_eq _ _ _) Hrun) as (-> & -> & ->).
        split; [reflexivity | right]. split; [reflexivity | ]. exists b.
        split; [reflexivity | ]. by rewrite (delete_id _ _ Hpayload).
      * rewrite (dict_contains_false _ _ Hcontext) in Hrun.
        injection Hrun as <- <- <-. split; [reflexivity | by left].
Qed.

Lemma create_failure_witness :
  BadgeInstanceSerializerV2.create_in_place ∅ {[ "cached_badgeclass" := VRef 2 ]} sample_world
    = (Raise (AttributeError "issuer"), {[ "badgeclass" := VRef 2 ]}, sample_world) /\
  BadgeInstanceSerializerV2.create ∅ {[ "cached_badgeclass" := VRef 2 ]} sample_world
    = (Raise (AttributeError "issuer"), sample_world).
Proof.
  pose proof (create_failure_leaves_objects_alone ∅ {[ "cached_badgeclass" := VRef 2 ]}
                sample_world) as (_ & _ & Hinstance).
  assert (BadgeInstanceSerializerV2.create_in_place ∅ {[ "cached_badgeclass" := VRef 2 ]}
            sample_world
          = (Raise (AttributeError "issuer"), {[ "badgeclass" := VRef 2 ]}, sample_world))
    as Hrun by reflexivity.
  rewrite Hrun in Hinstance. destruct Hinstance as (Hcreate & _).
  split; [exact Hrun | exact Hcreate].
Defined.

(** X3: a successful BadgeInstance creation draws no entropy and adds one
    object at an address unused before, leaving the other objects alone.
    The new object has no [cached_badgeclass] attribute, and every payload
    entry other than [issuer], [badgeclass] and [cached_badgeclass] is
    stored on it unchanged. *)
Theorem BadgeInstance_create_stores_payload
    (context validated_data : dict) (w w' : world) (instance : pyval) :
  BadgeInstanceSerializerV2.create context validated_data w = (Ok instance, w') ->
  exists l o,
    instance = VRef l /\
    heap w !! l = None /\
    w' = set_heap (<[l := o]> (heap w)) w /\
    o !! "cached_badgeclass" = None /\
    (forall k, k <> "issuer" -> k <> "badgeclass" -> k <> "cached_badgeclass" ->
       o !! k = validated_data !! k).
Proof.
  rewrite BadgeInstance_create_unfold.
  destruct (BadgeInstanceSerializerV2.resolved_badgeclass context validated_data)
    as [b|]; [ | discriminate ].
  destruct (getattr_result b "issuer" w) as [[issuer Hget]|Hget]; rewrite Hget;
    [ | discriminate ].
  unfold alloc. intros [= <- <-].
  eexists _, _. split; [reflexivity | ]. split; [apply fresh_loc_unused | ].
  split; [reflexivity | ]. split.
  - rewrite !lookup_insert_ne by done. apply lookup_delete_eq.
  - intros k Hk1 Hk2 Hk3. rewrite !lookup_insert_ne by done.
    by rewrite lookup_delete_ne.
Qed.

Lemma BadgeInstance_create_stores_witness :
  exists l o,
    BadgeInstanceSerializerV2.create ∅
      {[ "cached_badgeclass" := VRef 1; "narrative" := VStr "well done" ]} sample_world
      = (Ok (VRef l), set_heap (<[l := o]> (heap sample_world)) sample_world) /\
    o !! "cached_badgeclass" = None /\
    o !! "narrative" = Some (VStr "well done").
Proof.
  destruct (BadgeInstance_create_stores_payload ∅
              {[ "cached_badgeclass" := VRef 1; "narrative" := VStr "well done" ]}
              sample_world
              (set_heap
                 (<[fresh (dom (heap sample_world)) :=
                      <["issuer" := VRef 2]>
                        (<["badgeclass" := VRef 1]>
                           (delete "cached_badgeclass"
                              {[ "cached_badgeclass" := VRef 1;
                                 "narrative" := VStr "well done" ]}))]>
                    (heap sample_world)) sample_world)
              (VRef (fresh (dom (heap sample_world)))))
    as (l & o & Hinst & _ & Hworld & Hcached & Hother).
  - rewrite BadgeInstance_create_unfold. reflexivity.
  - exists l, o. split; [ | split; [exact Hcached | ] ].
    + rewrite BadgeInstance_create_unfold.
      change (BadgeInstanceSerializerV2.resolved_badgeclass ∅
                {[ "cached_badgeclass" := VRef 1; "narrative" := VStr "well done" ]})
        with (Some (VRef 1)).
      change (getattr (VRef 1) "issuer" sample_world) with (Ok (VRef 2), sample_world).
      unfold alloc. rewrite <- Hworld. by rewrite Hinst.
    + rewrite (Hother "narrative") by discriminate. reflexivity.
Defined.

(** ** Facts about [rfind] and [splitext] *)

Lemma contains_char_app (c : ascii) (s t : string) :
  contains_char c (s +:+ t) = contains_char c s || contains_char c t.
Proof.
  unfold contains_char. induction s as [|a s IH]; simpl; [reflexivity | ].
  by rewrite IH, orb_assoc.
Qed.

Lemma rfind_from_lower (c : ascii) (s : string) (i last : Z) :
  (last < i)%Z -> (last <= rfind_from c s i last)%Z.
Proof.
  revert i last. induction s as [|a s IH]; intros i last Hlt; simpl; [lia | ].
  destruct (Ascii.eqb a c).
  - specialize (IH (i + 1)%Z i). lia.
  - specialize (IH (i + 1)%Z last). lia.
Qed.

Lemma rfind_from_absent (c : ascii) (s : string) (i last : Z) :
  contains_char c s = false -> rfind_from c s i last = last.
Proof.
  unfold contains_char.
  revert i last. induction s as [|a s IH]; intros i last Hno; simpl in *; [reflexivity | ].
  apply orb_false_iff in Hno as [Ha Hs].
  rewrite Ascii.eqb_sym in Ha. rewrite Ha. by apply IH.
Qed.

(** Past the index [rfind] returns, the character does not occur. *)
Lemma rfind_from_last (c : ascii) (s : string) (i last : Z) (n : nat) :
  (last < i)%Z ->
  (rfind_from c s i last < i + Z.of_nat n)%Z ->
  contains_char c (str_drop n s) = false.
Proof.
  unfold contains_char.
  revert i last n. induction s as [|a s IH]; intros i last n Hlt Hr.
  - by destruct n.
  - simpl in Hr. destruct n as [|n]; simpl.
    + destruct (Ascii.eqb a c) eqn:Ha.
      * pose proof (rfind_from_lower c s (i + 1)%Z i). lia.
      * rewrite Ascii.eqb_sym, Ha. simpl.
        apply (IH (i + 1)%Z last 0%nat); [lia | ]. simpl. lia.
    + destruct (Ascii.eqb a c).
      * apply (IH (i + 1)%Z i n); lia.
      * apply (IH (i + 1)%Z last n); lia.
Qed.

Lemma rfind_from_range (c : ascii) (s : string) (i last : Z) :
  rfind_from c s i last = last \/ (i <= rfind_from c s i last)%Z.
Proof.
  revert i last. induction s as [|a s IH]; intros i last; simpl; [by left | ].
  destruct (Ascii.eqb a c).
  - right. destruct (IH (i + 1)%Z i); lia.
  - destruct (IH (i + 1)%Z last); [by left | right; lia].
Qed.

(** The index [rfind] returns, when it is not the default, holds the
    character. *)
Lemma rfind_from_found (c : ascii) (s : string) (i last : Z) :
  (last < i)%Z ->
  (i <= rfind_from c s i last)%Z ->
  String.get (Z.to_nat (rfind_from c s i last - i)) s = Some c.
Proof.
  revert i last. induction s as [|a s IH]; intros i last Hlt Hr; simpl in *; [lia | ].
  destruct (Ascii.eqb a c) eqn:Ha.
  - apply Ascii.eqb_eq in Ha as ->.
    destruct (rfind_from_range c s (i + 1)%Z i) as [Heq|Hge].
    + rewrite Heq. by replace (i - i)%Z with 0%Z by lia.
    + specialize (IH (i + 1)%Z i ltac:(lia) Hge).
      replace (Z.to_nat (rfind_from c s (i + 1) i - i))
        with (S (Z.to_nat (rfind_from c s (i + 1) i - (i + 1)))) by lia.
      exact IH.
  - destruct (rfind_from_range c s (i + 1)%Z last) as [Heq|Hge]; [lia | ].
    specialize (IH (i + 1)%Z last ltac:(lia) Hge).
    replace (Z.to_nat (rfind_from c s (i + 1) last - i))
      with (S (Z.to_nat (rfind_from c s (i + 1) last - (i + 1)))) by lia.
    exact IH.
Qed.

Lemma str_drop_get (n : nat) (s : string) (a : ascii) :
  String.get n s = Some a -> str_drop n s = String a (str_drop (S n) s).
Proof.
  revert n. induction s as [|b s IH]; intros n Hget; [by destruct n | ].
  destruct n as [|n]; simpl in *.
  - by injection Hget as ->.
  - rewrite (IH n Hget). by destruct s.
Qed.

Lemma str_take_drop (n : nat) (s : string) : str_take n s +:+ str_drop n s = s.
Proof.
  revert n. induction s as [|a s IH]; intros [|n]; try reflexivity.
  change (String a (str_take n s +:+ str_drop n s) = String a s).
  f_equal. apply IH.
Qed.

Lemma str_app_empty (s : string) : s +:+ "" = s.
Proof.
  induction s as [|a s IH]; [reflexivity | ].
  change (String a (s +:+ "") = String a s). by rewrite IH.
Qed.

Lemma splitext_scan_cases (p : string) (dotIndex remaining filenameIndex : nat) :
  splitext_scan p dotIndex remaining filenameIndex = (p, "") \/
  splitext_scan p dotIndex remaining filenameIndex
    = (str_take dotIndex p, str_drop dotIndex p).
Proof.
  revert filenameIndex. induction remaining as [|r IH]; intros f; simpl; [by left | ].
  destruct (String.get f p) as [a|]; [ | by right ].
  destruct (Ascii.eqb a ".") eqn:Ha.
  - apply Ascii.eqb_eq in Ha as ->. apply IH.
  - right. destruct a as [[] [] [] [] [] [] [] []]; try reflexivity. discriminate.
Qed.

(** The extension [splitext] returns is empty, or a dot followed by
    characters among which there is neither a dot nor a slash; and root
    and extension put together give the path back. *)
Lemma splitext_spec (p : string) :
  (splitext p).1 +:+ (splitext p).2 = p /\
  ((splitext p).2 = "" \/
   exists rest, (splitext p).2 = String "." rest /\
                contains_char "." rest = false /\ contains_char "/" rest = false).
Proof.
  unfold splitext.
  destruct (rfind p "/" <? rfind p ".")%Z eqn:Hcmp; [ | split; [ | by left ] ].
  2: { apply str_app_empty. }
  apply Z.ltb_lt in Hcmp.
  pose proof (rfind_from_lower "/" p 0 (-1) ltac:(lia)) as Hsep. fold (rfind p "/") in Hsep.
  destruct (splitext_scan_cases p (Z.to_nat (rfind p "."))
              (Z.to_nat (rfind p "." - (rfind p "/" + 1))) (Z.to_nat (rfind p "/" + 1)))
    as [-> | ->]; simpl.
  - split; [apply str_app_empty | by left ].
  - split; [apply str_take_drop | right].
    pose proof (rfind_from_found "." p 0 (-1) ltac:(lia)) as Hfound.
    fold (rfind p ".") in Hfound. rewrite Z.sub_0_r in Hfound.
    specialize (Hfound ltac:(lia)).
    exists (str_drop (S (Z.to_nat (rfind p "."))) p).
    split; [by apply str_drop_get | split].
    + apply (rfind_from_last "." p 0 (-1)); [lia | ]. fold (rfind p "."). lia.
    + apply (rfind_from_last "/" p 0 (-1)); [lia | ]. fold (rfind p "/"). lia.
Qed.

Lemma splitext_no_dot (p : string) :
  contains_char "." p = false -> splitext p = (p, "").
Proof.
  intros Hno. unfold splitext, rfind at 2. rewrite (rfind_from_absent _ _ _ _ Hno).
  pose proof (rfind_from_lower "/" p 0 (-1) ltac:(lia)) as Hsep. fold (rfind p "/") in Hsep.
  destruct (rfind p "/" <? -1)%Z eqn:Hcmp; [ | reflexivity ].
  apply Z.ltb_lt in Hcmp. lia.
Qed.

Lemma splitext_leading_dot (rest : string) :
  contains_char "." rest = false ->
  contains_char "/" rest = false ->
  splitext (String "." rest) = (String "." rest, "").
Proof.
  intros Hdot Hslash. unfold splitext, rfind. simpl.
  rewrite (rfind_from_absent _ _ _ _ Hdot), (rfind_from_absent _ _ _ _ Hslash).
  reflexivity.
Qed.

Lemma rfind_from_app_last (c : ascii) (b rest : string) (i last : Z) :
  contains_char c rest = false ->
  rfind_from c (b +:+ String c rest) i last = (i + Z.of_nat (String.length b))%Z.
Proof.
  intros Hrest. revert i last. induction b as [|a b IH]; intros i last.
  - change (rfind_from c (String c rest) i last = (i + 0)%Z). simpl.
    rewrite Ascii.eqb_refl, (rfind_from_absent _ _ _ _ Hrest). lia.
  - change (rfind_from c (String a (b +:+ String c rest)) i last
            = (i + Z.of_nat (S (String.length b)))%Z).
    simpl rfind_from. rewrite IH. lia.
Qed.

Lemma str_drop_app (b e : string) : str_drop (String.length b) (b +:+ e) = e.
Proof.
  induction b as [|a b IH]; [by destruct e | ].
  change (str_drop (S (String.length b)) (String a (b +:+ e)) = e). exact IH.
Qed.

(** Appending an extension [splitext] could have produced to a base name
    without dots and slashes gives a name whose extension is that one. *)
Lemma splitext_app (a : ascii) (b ext : string) :
  a <> "."%char ->
  contains_char "." (String a b) = false ->
  contains_char "/" (String a b) = false ->
  (ext = "" \/
   exists rest, ext = String "." rest /\
                contains_char "." rest = false /\ contains_char "/" rest = false) ->
  (splitext (String a b +:+ ext)).2 = ext.
Proof.
  intros Ha Hdot Hslash [-> | (rest & -> & Hrdot & Hrslash)].
  - rewrite str_app_empty. by rewrite (splitext_no_dot _ Hdot).
  - unfold splitext.
    assert (rfind (String a b +:+ String "." rest) "/" = (-1)%Z) as ->.
    { apply rfind_from_absent. rewrite contains_char_app, Hslash. simpl.
      exact Hrslash. }
    assert (rfind (String a b +:+ String "." rest) "."
            = Z.of_nat (String.length (String a b))) as ->.
    { unfold rfind. by rewrite (rfind_from_app_last _ _ _ _ _ Hrdot). }
    replace (-1 <? Z.of_nat (String.length (String a b)))%Z with true
      by (symmetry; apply Z.ltb_lt; lia).
    replace (Z.to_nat (Z.of_nat (String.length (String a b)) - (-1 + 1)))
      with (S (String.length b)) by (simpl String.length; lia).
    replace (Z.to_nat (-1 + 1)) with 0%nat by lia.
    rewrite Nat2Z.id.
    change (String a b +:+ String "." rest) with (String a (b +:+ String "." rest)).
    assert (splitext_scan (String a (b +:+ String "." rest))
              (String.length (String a b)) (S (String.length b)) 0
            = (str_take (String.length (String a b)) (String a (b +:+ String "." rest)),
               str_drop (String.length (String a b)) (String a (b +:+ String "." rest))))
      as ->.
    { simpl splitext_scan. destruct (Ascii.eqb a ".") eqn:Heq.
      - by apply Ascii.eqb_eq in Heq.
      - destruct a as [[] [] [] [] [] [] [] []]; try reflexivity. discriminate. }
    cbn [snd].
    change (String a (b +:+ String "." rest)) with (String a b +:+ String "." rest).
    apply str_drop_app.
Qed.

(** ** UUID text and separators *)

Lemma hex_digit_differs (c : ascii) (n : N) :
  is_hex_digit c = false -> Ascii.eqb c (hex_digit n) = false.
Proof.
  intros Hc. destruct (Ascii.eqb c (hex_digit n)) eqn:Heq; [ | reflexivity ].
  apply Ascii.eqb_eq in Heq. subst c. by rewrite hex_digit_is_hex in Hc.
Qed.

Lemma uuid_str_free (c : ascii) (n : N) :
  is_hex_digit c = false -> Ascii.eqb c "-" = false ->
  contains_char c (uuid_str n) = false.
Proof.
  intros Hhex Hhyphen. unfold contains_char, uuid_str.
  rewrite list_ascii_of_string_of_list_ascii.
  cbv [hex_fixed app take drop existsb].
  rewrite !(hex_digit_differs c _ Hhex), Hhyphen. reflexivity.
Qed.

(** ** More on [IssuerSerializerV2.validate_image] *)

Lemma validate_image_run (l : loc) (o : dict) (name : string) (w : world) :
  heap w !! l = Some o ->
  o !! "name" = Some (VStr name) ->
  IssuerSerializerV2.validate_image (VRef l) w
  = (Ok (VRef l),
     {| heap := <[l := <["name" := VStr ("issuer_logo_"
                                         +:+ uuid_str (uuid_of_random (urandom w (draws w)))
                                         +:+ (splitext name).2)]> o]> (heap w);
        urandom := urandom w;
        draws := S (draws w) |}).
Proof.
  intros Hl Hname. unfold IssuerSerializerV2.validate_image.
  unfold mbind at 1, M_bind at 1. unfold getattr at 1. rewrite Hl, Hname.
  unfold mbind at 1, M_bind at 1. unfold lift at 1.
  destruct (splitext name) as [img_name img_ext]. simpl.
  unfold mbind, M_bind, uuid4, setattr. simpl. rewrite Hl. reflexivity.
Qed.

(** X4: image validation succeeds exactly for [None] and for an object
    whose [name] is a string, and then returns what it was given; for any
    other image it raises, and a call that raises, like a call on [None],
    changes nothing and draws no entropy. *)
Theorem validate_image_failure_changes_nothing (image : pyval) (w : world) :
  match IssuerSerializerV2.validate_image image w with
  | (Raise e, w') =>
      w' = w /\ image <> VNone /\
      (forall name, getattr image "name" w <> (Ok (VStr name), w))
  | (Ok r, w') =>
      r = image /\
      (image = VNone /\ w' = w \/
       exists name, getattr image "name" w = (Ok (VStr name), w))
  end.
Proof.
  destruct image as [| b | z | s | items | entries | l];
    try (simpl; split; [done | split; [done | intros name; discriminate] ]).
  - split; [done | by left].
  - unfold getattr.
    destruct (heap w !! l) as [o|] eqn:Hl;
      [ | unfold IssuerSerializerV2.validate_image, mbind, M_bind, getattr;
          rewrite Hl; split; [done | split; [done | intros name; discriminate] ] ].
    destruct (o !! "name") as [name|] eqn:Hname;
      [ | unfold IssuerSerializerV2.validate_image, mbind, M_bind, getattr;
          rewrite Hl, Hname; split; [done | split; [done | intros name; discriminate] ] ].
    destruct name as [| b | z | s | items | entries | l'];
      try (unfold IssuerSerializerV2.validate_image, mbind, M_bind, getattr, lift;
           rewrite Hl, Hname; split; [done | split; [done | intros name; discriminate] ]).
    rewrite (validate_image_run l o s w Hl Hname). split; [done | right; by eexists].
Qed.

(** X5: an image whose name has no dot, or whose only dot is its first
    character and which has no slash, is renamed to [issuer_logo_] and the
    UUID text, with no extension. *)
Theorem validate_image_without_extension (l : loc) (o : dict) (name : string) (w : world) :
  heap w !! l = Some o ->
  o !! "name" = Some (VStr name) ->
  (contains_char "." name = false \/
   exists rest, name = String "." rest /\
                contains_char "." rest = false /\ contains_char "/" rest = false) ->
  IssuerSerializerV2.validate_image (VRef l) w
  = (Ok (VRef l),
     {| heap := <[l := <["name" := VStr ("issuer_logo_"
                                         +:+ uuid_str (uuid_of_random (urandom w (draws w))))]>
                         o]> (heap w);
        urandom := urandom w;
        draws := S (draws w) |}).
Proof.
  intros Hl Hname Hshape. rewrite (validate_image_run l o name w Hl Hname).
  assert ((splitext name).2 = "") as ->.
  { destruct Hshape as [Hno | (rest & -> & Hdot & Hslash)].
    - by rewrite (splitext_no_dot _ Hno).
    - by rewrite (splitext_leading_dot _ Hdot Hslash). }
  by rewrite str_app_empty.
Qed.

Lemma validate_image_without_extension_witness :
  IssuerSerializerV2.validate_image (VRef 2) sample_world
  = (Ok (VRef 2),
     {| heap := <[2 := {[ "name" := VStr "issuer_logo_01234567-89ab-4def-8123-456789abcdef" ]}]>
                  (heap sample_world);
        urandom := urandom sample_world;
        draws := 1 |}).
Proof.
  rewrite (validate_image_without_extension 2 {[ "name" := VStr "Academy" ]} "Academy"
             sample_world).
  - reflexivity.
  - reflexivity.
  - reflexivity.
  - left. reflexivity.
Defined.

(** X6: whatever the uploaded name was, the new name of a validated image
    contains no path separator. *)
Theorem validate_image_name_has_no_slash
    (l : loc) (o : dict) (name : string) (w w' : world) (r : pyval) :
  heap w !! l = Some o ->
  o !! "name" = Some (VStr name) ->
  IssuerSerializerV2.validate_image (VRef l) w = (Ok r, w') ->
  exists name',
    getattr r "name" w' = (Ok (VStr name'), w') /\ contains_char "/" name' = false.
Proof.
  intros Hl Hname. rewrite (validate_image_run l o name w Hl Hname). intros [= <- <-].
  eexists. split.
  - unfold getattr. simpl. rewrite lookup_insert_eq. by rewrite lookup_insert_eq.
  - rewrite !contains_char_app.
    rewrite (uuid_str_free "/" _ eq_refl eq_refl).
    destruct (splitext_spec name) as [_ [-> | (rest & -> & _ & Hslash)]].
    + reflexivity.
    + simpl. exact Hslash.
Qed.

Lemma validate_image_name_has_no_slash_witness :
  exists name',
    getattr (VRef 0) "name" (IssuerSerializerV2.validate_image (VRef 0) sample_world).2
      = (Ok (VStr name'), (IssuerSerializerV2.validate_image (VRef 0) sample_world).2) /\
    contains_char "/" name' = false.
Proof.
  apply (validate_image_name_has_no_slash 0
           {[ "name" := VStr "photo.png"; "size" := VInt 2048 ]} "photo.png"
           sample_world).
  - reflexivity.
  - reflexivity.
  - reflexivity.
Defined.

(** X7: validating the same image a second time keeps the extension the
    first validation kept, and takes the UUID from the following entropy
    draw. *)
Theorem validate_image_twice_keeps_extension (l : loc) (o : dict) (name : string) (w : world) :
  heap w !! l = Some o ->
  o !! "name" = Some (VStr name) ->
  (image ← IssuerSerializerV2.validate_image (VRef l);
   IssuerSerializerV2.validate_image image) w
  = (Ok (VRef l),
     {| heap := <[l := <["name" := VStr ("issuer_logo_"
                                         +:+ uuid_str (uuid_of_random (urandom w (S (draws w))))
                                         +:+ (splitext name).2)]> o]> (heap w);
        urandom := urandom w;
        draws := S (S (draws w)) |}).
Proof.
  intros Hl Hname. unfold mbind at 1, M_bind at 1.
  rewrite (validate_image_run l o name w Hl Hname).
  erewrite validate_image_run;
    [ | simpl; apply lookup_insert_eq | apply lookup_insert_eq ].
  simpl. rewrite !insert_insert_eq. do 4 f_equal.
  change ("issuer_logo_" +:+ uuid_str (uuid_of_random (urandom w (draws w)))
          +:+ (splitext name).2)
    with (String "i" ("ssuer_logo_" +:+ uuid_str (uuid_of_random (urandom w (draws w))))
          +:+ (splitext name).2).
  rewrite splitext_app; [reflexivity | discriminate | | | ].
  - change (String "i" ("ssuer_logo_" +:+ uuid_str (uuid_of_random (urandom w (draws w)))))
      with ("issuer_logo_" +:+ uuid_str (uuid_of_random (urandom w (draws w)))).
    rewrite contains_char_app. by rewrite (uuid_str_free "." _ eq_refl eq_refl).
  - change (String "i" ("ssuer_logo_" +:+ uuid_str (uuid_of_random (urandom w (draws w)))))
      with ("issuer_logo_" +:+ uuid_str (uuid_of_random (urandom w (draws w)))).
    rewrite contains_char_app. by rewrite (uuid_str_free "/" _ eq_refl eq_refl).
  - apply splitext_spec.
Qed.

Lemma validate_image_twice_witness :
  (image ← IssuerSerializerV2.validate_image (VRef 0);
   IssuerSerializerV2.validate_image image) sample_world
  = (Ok (VRef 0),
     {| heap := <[0 := <["name" := VStr "issuer_logo_01234567-89ab-4def-8123-456789abcdf0.png"]>
                         {[ "name" := VStr "photo.png"; "size" := VInt 2048 ]}]>
                  (heap sample_world);
        urandom := urandom sample_world;
        draws := 2 |}).
Proof.
  rewrite (validate_image_twice_keeps_extension 0
             {[ "name" := VStr "photo.png"; "size" := VInt 2048 ]} "photo.png"
             sample_world).
  - reflexivity.
  - reflexivity.
  - reflexivity.
Defined.

(** ** More on [BadgeRecipientSerializerV2] *)

Section RecipientMore.
Context `{Imports}.

Lemma VALIDATORS_unknown (t : string) :
  t ∉ [RECIPIENT_TYPE_EMAIL; RECIPIENT_TYPE_URL; RECIPIENT_TYPE_ID;
       RECIPIENT_TYPE_TELEPHONE] ->
  BadgeRecipientSerializerV2.VALIDATORS !! t = None.
Proof.
  intros Hnot. unfold BadgeRecipientSerializerV2.VALIDATORS.
  repeat (apply not_elem_of_cons in Hnot as [? Hnot]).
  by simplify_map_eq.
Qed.

(** X8: when the recipient type is missing, [None], or a string that is
    none of the four type constants, validation checks nothing: [attrs]
    comes back unchanged whatever the recipient identifier is. *)
Theorem Recipient_validate_skips_unknown_type (attrs : dict) :
  attrs !! "recipient_type" = None \/
  attrs !! "recipient_type" = Some VNone \/
  (exists t, attrs !! "recipient_type" = Some (VStr t) /\
             t ∉ [RECIPIENT_TYPE_EMAIL; RECIPIENT_TYPE_URL; RECIPIENT_TYPE_ID;
                  RECIPIENT_TYPE_TELEPHONE]) ->
  BadgeRecipientSerializerV2.validate attrs = Ok attrs.
Proof.
  unfold BadgeRecipientSerializerV2.validate.
  intros [Htype | [Htype | (t & Htype & Hnot)]].
  - by rewrite (dict_get_None _ _ Htype).
  - by rewrite (dict_get_Some _ _ _ Htype).
  - rewrite (dict_get_Some _ _ _ Htype). simpl.
    by rewrite (VALIDATORS_unknown t Hnot).
Qed.

Lemma run_field_keeps_errors (data : dict) (f : Field) (ret ret' : dict)
    (first : string * detail) (errors errors' : list (string * detail)) :
  run_field data (ret, first :: errors) f = Ok (ret', errors') ->
  exists rest, errors' = first :: rest.
Proof.
  unfold run_field.
  destruct (data !! field_name f) as [v|].
  - destruct (run_validation f v) as [v'|[]]; try discriminate;
      intros [= <- <-]; by eexists.
  - destruct (required f); [ intros [= <- <-]; by eexists | ].
    destruct (default_value f); intros [= <- <-]; by eexists.
Qed.

Lemma run_field_raise (data : dict) (acc : dict * list (string * detail)) (f : Field)
    (e : exn) :
  run_field data acc f = Raise e -> forall d, e <> ValidationError d.
Proof.
  unfold run_field. destruct acc as [ret errors].
  destruct (data !! field_name f) as [v|].
  - destruct (run_validation f v) as [v'|[]]; try discriminate;
      intros [= <-] d; discriminate.
  - destruct (required f); [discriminate | ].
    destruct (default_value f); discriminate.
Qed.

(** X9: a recipient payload without an identity is never deserialised:
    [to_internal_value] raises, and when what it raises is a validation
    error, that error is a dictionary whose first entry is the required
    field error under [identity]. *)
Theorem Recipient_payload_without_identity_rejected (data : dict) :
  data !! "identity" = None ->
  exists e,
    to_internal_value BadgeRecipientSerializerV2.fields data = Raise e /\
    (forall d, e = ValidationError d ->
       exists rest, d = DDict (("identity", DMsg "This field is required.") :: rest)).
Proof.
  intros Hidentity.
  assert (run_field data (∅, []) BadgeRecipientSerializerV2.identity
          = Ok (∅, [("identity", DMsg "This field is required.")])) as Hfirst.
  { unfold run_field. simpl. by rewrite Hidentity. }
  unfold to_internal_value, BadgeRecipientSerializerV2.fields.
  change (run_fields data (∅, [])
            [BadgeRecipientSerializerV2.identity; BadgeRecipientSerializerV2.type])
    with (acc ← run_field data (∅, []) BadgeRecipientSerializerV2.identity;
          acc' ← run_field data acc BadgeRecipientSerializerV2.type;
          Ok acc').
  rewrite Hfirst. unfold mbind, result_bind.
  destruct (run_field data (∅, [("identity", DMsg "This field is required.")])
              BadgeRecipientSerializerV2.type) as [[ret errors]|e] eqn:Htype.
  - destruct (run_field_keeps_errors _ _ _ _ _ _ _ Htype) as [rest ->].
    eexists. split; [reflexivity | ]. intros d [= <-]. by eexists.
  - eexists. split; [reflexivity | ]. intros d ->.
    by destruct (run_field_raise _ _ _ _ Htype d).
Qed.

End RecipientMore.

Lemma Recipient_validate_skips_witness :
  @BadgeRecipientSerializerV2.validate sample_imports
     {[ "recipient_type" := VStr "fax"; "recipient_identifier" := VStr "no format" ]}
  = Ok {[ "recipient_type" := VStr "fax"; "recipient_identifier" := VStr "no format" ]}.
Proof.
  apply (@Recipient_validate_skips_unknown_type sample_imports).
  right. right. exists "fax". split; [reflexivity | ].
  intros Hin. apply list_elem_of_In in Hin. simpl in Hin.
  intuition discriminate.
Defined.

Lemma Recipient_payload_without_identity_witness :
  exists e,
    to_internal_value (@BadgeRecipientSerializerV2.fields sample_imports)
      {[ "type" := VStr "url" ]} = Raise e /\
    (forall d, e = ValidationError d ->
       exists rest, d = DDict (("identity", DMsg "This field is required.") :: rest)).
Proof.
  apply (@Recipient_payload_without_identity_rejected sample_imports).
  reflexivity.
Defined.

(** ** Creation followed by update *)

Lemma BadgeClass_update_unfold (l : loc) (o validated_data : dict) (w : world) :
  heap w !! l = Some o ->
  BadgeClassSerializerV2.update (VRef l) validated_data w
  = (Ok (VRef l),
     set_heap (<[l := delete "cached_issuer" validated_data ∪ o]> (heap w)) w).
Proof.
  intros Hl. unfold BadgeClassSerializerV2.update.
  destruct (validated_data !! "cached_issuer") as [i|] eqn:Hpayload.
  - rewrite (dict_contains_true _ _ _ Hpayload).
    unfold mbind, M_bind, lift, dict_pop. rewrite Hpayload. simpl.
    by rewrite Hl.
  - rewrite (dict_contains_false _ _ Hpayload).
    unfold mbind, M_bind, mret, M_ret. simpl.
    by rewrite Hl, (delete_id _ _ Hpayload).
Qed.

(** X10: the issuer a BadgeClass is created with survives a later update
    with any validated payload, and the issuer such a payload names is
    stored nowhere: after creation and update, the instance's [issuer] is
    the issuer resolved at creation, it has no [cached_issuer] attribute,
    and every other entry of the update payload is set on it. *)
Theorem BadgeClass_issuer_fixed_at_creation
    (context validated_data update_data : dict) (issuer : pyval) (w : world) :
  resolved_issuer context validated_data = Some issuer ->
  BadgeClassSerializerV2.validated update_data ->
  exists l w' o',
    (instance ← BadgeClassSerializerV2.create context validated_data;
     BadgeClassSerializerV2.update instance update_data) w = (Ok (VRef l), w') /\
    heap w !! l = None /\
    getattr (VRef l) "issuer" w' = (Ok issuer, w') /\
    heap w' !! l = Some o' /\
    o' !! "cached_issuer" = None /\
    getattr (VRef l) "cached_issuer" w' = (Raise (AttributeError "cached_issuer"), w') /\
    (forall k v, k <> "cached_issuer" -> update_data !! k = Some v -> o' !! k = Some v).
Proof.
  intros Hresolved Hvalidated. apply validated_no_issuer in Hvalidated.
  unfold mbind at 1, M_bind at 1.
  rewrite BadgeClass_create_unfold, Hresolved. unfold alloc.
  erewrite BadgeClass_update_unfold by (simpl; apply lookup_insert_eq).
  assert ((delete "cached_issuer" update_data
           ∪ <["issuer" := issuer]> (delete "cached_issuer" validated_data))
            !! "cached_issuer" = None) as Hcached.
  { apply lookup_union_None. split; [apply lookup_delete_eq | ].
    rewrite lookup_insert_ne by done. apply lookup_delete_eq. }
  eexists _, _, _. split; [reflexivity | ]. split; [apply fresh_loc_unused | ].
  split; [ | split; [ simpl; apply lookup_insert_eq | split; [exact Hcached | split] ] ].
  - unfold getattr. simpl. rewrite lookup_insert_eq.
    rewrite lookup_union_r by (by rewrite lookup_delete_ne).
    by rewrite lookup_insert_eq.
  - unfold getattr. simpl. rewrite lookup_insert_eq. by rewrite Hcached.
  - intros k v Hk Hv. apply lookup_union_Some_l. by rewrite lookup_delete_ne.
Qed.

Lemma BadgeClass_issuer_fixed_witness :
  exists l w' o',
    (instance ← BadgeClassSerializerV2.create {[ "issuer" := VRef 2 ]}
                  {[ "name" := VStr "Rocq 101" ]};
     BadgeClassSerializerV2.update instance
       {[ "cached_issuer" := VRef 0; "name" := VStr "Rocq 102" ]}) sample_world
      = (Ok (VRef l), w') /\
    heap sample_world !! l = None /\
    getattr (VRef l) "issuer" w' = (Ok (VRef 2), w') /\
    heap w' !! l = Some o' /\
    o' !! "cached_issuer" = None /\
    o' !! "name" = Some (VStr "Rocq 102").
Proof.
  destruct (BadgeClass_issuer_fixed_at_creation {[ "issuer" := VRef 2 ]}
              {[ "name" := VStr "Rocq 101" ]}
              {[ "cached_issuer" := VRef 0; "name" := VStr "Rocq 102" ]}
              (VRef 2) sample_world)
    as (l & w' & o' & Hrun & Hfresh & Hissuer & Hobject & Hcached & _ & Hother).
  - reflexivity.
  - intros k [x Hk]. apply list_elem_of_In.
    destruct (decide (k = "cached_issuer")) as [->|Hne1]; [simpl; tauto | ].
    destruct (decide (k = "name")) as [->|Hne2]; [simpl; tauto | ].
    by simplify_map_eq.
  - exists l, w', o'.
    split; [exact Hrun | ]. split; [exact Hfresh | ]. split; [exact Hissuer | ].
    split; [exact Hobject | ]. split; [exact Hcached | ].
    apply (Hother "name"); [discriminate | reflexivity].
Defined.

(** ** More on the migration *)

Section MigrationMore.
Import Migration0018.

Lemma run_data_lookup (db : database) (pk : Z) (row : dict) :
  ApplicationInfo db !! pk = Some row ->
  exists i,
    all_rows db !! i = Some (pk, row) /\
    ApplicationInfo (run_data db) !! pk
      = Some (<["manifest_domain" := VStr (random_domains db (generated db + i))]> row).
Proof.
  intros Hpk.
  destruct (run_data_rows (all_rows db) db (all_rows_NoDup db)) as (_ & _ & Hrows & _).
  assert (exists i, all_rows db !! i = Some (pk, row)) as [i Hi].
  { apply list_elem_of_lookup. by apply all_rows_elem_of. }
  exists i. split; [exact Hi | ]. exact (Hrows i pk row Hi).
Qed.

Lemma run_data_lookup_None (db : database) (pk : Z) :
  ApplicationInfo db !! pk = None -> ApplicationInfo (run_data db) !! pk = None.
Proof.
  intros Hpk.
  destruct (run_data_rows (all_rows db) db (all_rows_NoDup db)) as (_ & _ & _ & Hother).
  unfold run_data. rewrite Hother; [exact Hpk | ].
  intros Hin. apply list_elem_of_fmap in Hin as ([pk' row'] & -> & Hin).
  apply all_rows_elem_of in Hin. simpl in Hpk. congruence.
Qed.

Lemma run_data_counters (db : database) :
  generated (run_data db) = generated db + size (ApplicationInfo db) /\
  random_domains (run_data db) = random_domains db.
Proof.
  destruct (run_data_rows (all_rows db) db (all_rows_NoDup db)) as (Hgen & Hdomains & _).
  split; [ | exact Hdomains ].
  unfold run_data. rewrite Hgen. by rewrite all_rows_length.
Qed.

(** X11: on an empty table the migration changes nothing and does not
    call the generator. *)
Theorem run_data_empty_table (db : database) :
  ApplicationInfo db = ∅ -> run_data db = db.
Proof.
  intros Hempty. unfold run_data, all_rows. rewrite Hempty, map_to_list_empty.
  reflexivity.
Qed.

Lemma run_data_empty_witness :
  run_data {| ApplicationInfo := ∅; random_domains := sample_label; generated := 4 |}
  = {| ApplicationInfo := ∅; random_domains := sample_label; generated := 4 |}.
Proof.
  apply (run_data_empty_table
           {| ApplicationInfo := ∅; random_domains := sample_label; generated := 4 |}).
  reflexivity.
Defined.

(** X12: running the migration a second time keeps the table's keys and
    every field other than [manifest_domain] of every row; each row's
    [manifest_domain] is then a value generated during the second run, and
    the generator has been called twice per row in all. *)
Theorem run_data_twice (db : database) :
  let n := size (ApplicationInfo db) in
  dom (ApplicationInfo (run_data (run_data db))) = dom (ApplicationInfo db) /\
  generated (run_data (run_data db)) = generated db + 2 * n /\
  (forall pk row,
     ApplicationInfo db !! pk = Some row ->
     exists j row'',
       j < n /\
       ApplicationInfo (run_data (run_data db)) !! pk = Some row'' /\
       row'' !! "manifest_domain"
         = Some (VStr (random_domains db (generated db + n + j))) /\
       (forall field, field <> "manifest_domain" -> row'' !! field = row !! field)).
Proof.
  intros n.
  destruct (run_data_counters db) as [Hgen1 Hdom1].
  destruct (run_data_counters (run_data db)) as [Hgen2 _].
  assert (forall pk, is_Some (ApplicationInfo (run_data db) !! pk)
                     <-> is_Some (ApplicationInfo db !! pk)) as Hsame.
  { intros pk. destruct (ApplicationInfo db !! pk) as [row|] eqn:Hpk.
    - destruct (run_data_lookup db pk row Hpk) as (i & _ & ->). split; eauto.
    - by rewrite (run_data_lookup_None db pk Hpk). }
  assert (dom (ApplicationInfo (run_data db)) = dom (ApplicationInfo db)) as Hkeys.
  { apply set_eq. intros pk. rewrite !elem_of_dom. apply Hsame. }
  assert (size (ApplicationInfo (run_data db)) = n) as Hsize.
  { subst n. rewrite <- !size_dom. by rewrite Hkeys. }
  split; [ | split ].
  - apply set_eq. intros pk. rewrite !elem_of_dom.
    rewrite <- (Hsame pk).
    destruct (ApplicationInfo (run_data db) !! pk) as [row|] eqn:Hpk.
    + destruct (run_data_lookup (run_data db) pk row Hpk) as (i & _ & ->). split; eauto.
    + by rewrite (run_data_lookup_None (run_data db) pk Hpk).
  - rewrite Hgen2, Hgen1, Hsize. lia.
  - intros pk row Hpk.
    destruct (run_data_lookup db pk row Hpk) as (i & _ & Hfirst).
    destruct (run_data_lookup (run_data db) pk _ Hfirst) as (j & Hj & Hsecond).
    exists j. eexists. split; [ | split; [exact Hsecond | split] ].
    + apply lookup_lt_Some in Hj. rewrite all_rows_length in Hj. lia.
    + rewrite lookup_insert_eq, Hdom1, Hgen1. reflexivity.
    + intros field Hfield. by rewrite !lookup_insert_ne.
Qed.

(** X13: the generator is called once for each row, so when it never
    returns the same value twice, two different rows never end up with
    the same [manifest_domain]. *)
Theorem run_data_distinct_domains (db : database) (pk1 pk2 : Z) (row1 row2 : dict) :
  (forall i j, random_domains db i = random_domains db j -> i = j) ->
  pk1 <> pk2 ->
  ApplicationInfo (run_data db) !! pk1 = Some row1 ->
  ApplicationInfo (run_data db) !! pk2 = Some row2 ->
  row1 !! "manifest_domain" <> row2 !! "manifest_domain".
Proof.
  intros Hinjective Hne H1 H2.
  destruct (ApplicationInfo db !! pk1) as [old1|] eqn:Hold1;
    [ | by rewrite (run_data_lookup_None db pk1 Hold1) in H1 ].
  destruct (ApplicationInfo db !! pk2) as [old2|] eqn:Hold2;
    [ | by rewrite (run_data_lookup_None db pk2 Hold2) in H2 ].
  destruct (run_data_lookup db pk1 old1 Hold1) as (i & Hi & Hnew1).
  destruct (run_data_lookup db pk2 old2 Hold2) as (j & Hj & Hnew2).
  rewrite Hnew1 in H1. rewrite Hnew2 in H2.
  injection H1 as <-. injection H2 as <-.
  rewrite !lookup_insert_eq. intros [= Heq].
  apply Hinjective in Heq. assert (i = j) as -> by lia.
  rewrite Hi in Hj. by injection Hj.
Qed.

Lemma sample_label_length (k : nat) : String.length (sample_label k) = k + 13.
Proof. induction k as [|k IH]; simpl; [reflexivity | by rewrite IH]. Qed.

Lemma run_data_distinct_domains_witness :
  ({[ "manifest_domain" := VStr "xxxx.example.test"; "name" := VStr "first" ]} : dict)
    !! "manifest_domain"
  <> ({[ "manifest_domain" := VStr "xxxxx.example.test"; "name" := VStr "second" ]} : dict)
       !! "manifest_domain".
Proof.
  apply (run_data_distinct_domains sample_database2 3%Z 5%Z).
  - simpl. intros i j Heq.
    pose proof (sample_label_length i) as Hi. pose proof (sample_label_length j) as Hj.
    rewrite Heq in Hi. lia.
  - discriminate.
  - reflexivity.
  - reflexivity.
Defined.

End MigrationMore.

(** ** Deserialisation followed by validation *)

Section RecipientEndToEnd.
Context `{Imports}.

(** X14: a recipient payload that names its type is deserialised with
    that type, not the default, and validation then checks the identity
    with the validator keyed by the named type. *)
Theorem Recipient_explicit_type_is_used
    (data : dict) (v tv ident : pyval) (t : string) (validator : pyval -> result unit) :
  distinct_recipient_types ->
  data !! "identity" = Some v ->
  CharField v = Ok ident ->
  data !! "type" = Some tv ->
  ChoiceField tv = Ok (VStr t) ->
  keyed_validator t validator ->
  let attrs : dict :=
    <["recipient_type" := VStr t]> (<["recipient_identifier" := ident]> ∅) in
  to_internal_value BadgeRecipientSerializerV2.fields data = Ok attrs /\
  BadgeRecipientSerializerV2.validate attrs
  = match validator ident with
    | Ok _ => Ok attrs
    | Raise (DjangoValidationError message) => Raise (ValidationError (DMsg message))
    | Raise e => Raise e
    end.
Proof.
  intros Hdistinct Hidentity Hchar Htype Hchoice Hkeyed attrs.
  assert (attrs !! "recipient_type" = Some (VStr t)) as Hty
    by (subst attrs; by simplify_map_eq).
  assert (dict_get attrs "recipient_identifier" = ident) as Hid.
  { subst attrs. unfold dict_get. by simplify_map_eq. }
  split.
  - unfold to_internal_value, BadgeRecipientSerializerV2.fields, run_fields.
    unfold run_field at 1. simpl. rewrite Hidentity, Hchar. simpl.
    unfold run_field. simpl. rewrite Htype, Hchoice. reflexivity.
  - rewrite (validate_keyed attrs t validator Hdistinct Hty Hkeyed).
    unfold format_checked. by rewrite Hid.
Qed.

End RecipientEndToEnd.

Lemma Recipient_explicit_type_witness :
  to_internal_value (@BadgeRecipientSerializerV2.fields sample_imports)
    {[ "identity" := VStr "a@b.org"; "type" := VStr "url" ]}
  = Ok {[ "recipient_type" := VStr "url"; "recipient_identifier" := VStr "a@b.org" ]} /\
  @BadgeRecipientSerializerV2.validate sample_imports
    {[ "recipient_type" := VStr "url"; "recipient_identifier" := VStr "a@b.org" ]}
  = Raise (ValidationError (DMsg "Enter a valid URL.")).
Proof.
  apply (@Recipient_explicit_type_is_used sample_imports
           {[ "identity" := VStr "a@b.org"; "type" := VStr "url" ]}
           (VStr "a@b.org") (VStr "url") (VStr "a@b.org") "url"
           (@URLValidator sample_imports)).
  - exact sample_types_distinct.
  - reflexivity.
  - reflexivity.
  - reflexivity.
  - reflexivity.
  - exact (@keyed_url sample_imports).
Defined.

(** ** The migration and repeated values *)

Section MigrationRepeats.
Import Migration0018.

(** X15: the migration does nothing to keep the domains apart: when the
    generator returns the same value at every call made during the run,
    every row ends up with that value as its [manifest_domain]. *)
Theorem run_data_repeated_domain (db : database) (domain : string) (pk : Z) (row' : dict) :
  (forall i, i < size (ApplicationInfo db) ->
             random_domains db (generated db + i) = domain) ->
  ApplicationInfo (run_data db) !! pk = Some row' ->
  row' !! "manifest_domain" = Some (VStr domain).
Proof.
  intros Hsame Hpk.
  destruct (ApplicationInfo db !! pk) as [row|] eqn:Hold;
    [ | by rewrite (run_data_lookup_None db pk Hold) in Hpk ].
  destruct (run_data_lookup db pk row Hold) as (i & Hi & Hnew).
  rewrite Hnew in Hpk. injection Hpk as <-.
  rewrite lookup_insert_eq. do 2 f_equal. apply Hsame.
  apply lookup_lt_Some in Hi. by rewrite all_rows_length in Hi.
Qed.

Lemma run_data_repeated_domain_witness :
  exists row3 row5 : dict,
    ApplicationInfo (run_data sample_database3) !! 3%Z = Some row3 /\
    ApplicationInfo (run_data sample_database3) !! 5%Z = Some row5 /\
    row3 !! "manifest_domain" = Some (VStr "same.example.test") /\
    row5 !! "manifest_domain" = Some (VStr "same.example.test").
Proof.
  exists {[ "manifest_domain" := VStr "same.example.test"; "name" := VStr "first" ]},
    {[ "manifest_domain" := VStr "same.example.test"; "name" := VStr "second" ]}.
  split; [reflexivity | ]. split; [reflexivity | ]. split.
  - apply (run_data_repeated_domain sample_database3 "same.example.test" 3%Z).
    + intros i Hi. reflexivity.
    + reflexivity.
  - apply (run_data_repeated_domain sample_database3 "same.example.test" 5%Z).
    + intros i Hi. reflexivity.
    + reflexivity.
Defined.

End MigrationRepeats.
